(** * The Azure blob-storage upload provider for Strapi

    A shallow embedding of the provider's two source variants and the
    properties its specification states about them.

    - [src/src/index.ts]: uploads write the plain object URL; the host asks
      for a signed URL through [getSignedUrl] when [isPrivate] answers true.
    - [src/unnamed/part_001]: the configuration carries [containerAccessType]
      and uploads to a private container write a signed URL directly.

    [trimParam], [getFileName], [uploadOptions] and [handleDelete] are the
    same text in both files and are embedded once. *)

From Stdlib Require Import ZArith Lia Bool List Ascii String DecimalString.
From stdpp Require Import gmap strings list fin_maps.

Open Scope string_scope.

#[local] Arguments String.append !s1 s2 : simpl nomatch.

(** ** JavaScript strings

    A string is the sequence of its UTF-16 code units; the embedding keeps
    the code units below 256, one [ascii] each. *)

(** The code units below 256 that [String.prototype.trim] strips: TAB, LF,
    VT, FF, CR, SPACE and NO-BREAK SPACE. *)
Definition is_white_space (c : ascii) : bool :=
  match N_of_ascii c with
  | 9 | 10 | 11 | 12 | 13 | 32 | 160 => true
  | _ => false
  end%N.

Fixpoint all_white_space (s : string) : bool :=
  match s with
  | EmptyString => true
  | String c s' => is_white_space c && all_white_space s'
  end.

Fixpoint trim_start (s : string) : string :=
  match s with
  | EmptyString => EmptyString
  | String c s' => if is_white_space c then trim_start s' else s
  end.

Fixpoint trim_end (s : string) : string :=
  match s with
  | EmptyString => EmptyString
  | String c s' =>
      match trim_end s' with
      | EmptyString => if is_white_space c then EmptyString else String c EmptyString
      | r => String c r
      end
  end.

(** [s.trim()] *)
Definition trim (s : string) : string := trim_end (trim_start s).

Definition head_char (s : string) : option ascii :=
  match s with
  | EmptyString => None
  | String c _ => Some c
  end.

Fixpoint last_char (s : string) : option ascii :=
  match s with
  | EmptyString => None
  | String c EmptyString => Some c
  | String _ s' => last_char s'
  end.

(** [strip_prefix p s] is [Some r] when [s = p ++ r]. *)
Fixpoint strip_prefix (p s : string) : option string :=
  match p with
  | EmptyString => Some s
  | String a p' =>
      match s with
      | EmptyString => None
      | String b s' => if Ascii.eqb a b then strip_prefix p' s' else None
      end
  end.

(** The first occurrence of [pat] in [s], as the text before it and the text
    after it ([StringIndexOf] from position 0). *)
Fixpoint split_at_first (pat s : string) : option (string * string) :=
  match strip_prefix pat s with
  | Some rest => Some (EmptyString, rest)
  | None =>
      match s with
      | EmptyString => None
      | String c s' =>
          match split_at_first pat s' with
          | Some (before, after) => Some (String c before, after)
          | None => None
          end
      end
  end.

(** [GetSubstitution] of ECMAScript for a string pattern, which has no
    captures: in the replacement text [$$] stands for a dollar sign, [$&] for
    the matched text, [$`] for the text before the match and [$'] for the
    text after it; a dollar sign before anything else stands for itself. *)
Fixpoint GetSubstitution (matched before after template : string) : string :=
  match template with
  | EmptyString => EmptyString
  | String c tl =>
      if Ascii.eqb c "$" then
        match tl with
        | EmptyString => String c EmptyString
        | String d rest =>
            if Ascii.eqb d "$" then String "$" (GetSubstitution matched before after rest)
            else if Ascii.eqb d "&" then matched ++ GetSubstitution matched before after rest
            else if Ascii.eqb d "`" then before ++ GetSubstitution matched before after rest
            else if Ascii.eqb d "'" then after ++ GetSubstitution matched before after rest
            else String c (GetSubstitution matched before after tl)
        end
      else String c (GetSubstitution matched before after tl)
  end.

(** [s.replace(pat, repl)] with a string pattern: only the first occurrence
    is replaced, and [s] is returned as it is when there is none. *)
Definition replace (s pat repl : string) : string :=
  match split_at_first pat s with
  | Some (before, after) => before ++ GetSubstitution pat before after repl ++ after
  | None => s
  end.

Fixpoint has_char (c : ascii) (s : string) : bool :=
  match s with
  | EmptyString => false
  | String d s' => Ascii.eqb d c || has_char c s'
  end.

(** [contains x s]: the text [x] occurs in [s]. *)
Definition contains (x s : string) : Prop := exists a b, s = a ++ x ++ b.

(** ** JavaScript values

    The host hands the provider whatever its configuration file holds, so a
    raw option is a JavaScript value. The embedding keeps [undefined],
    [null], the booleans, the strings, and of the numbers the integers and
    [NaN]. *)
Inductive JsValue :=
| JsUndefined
| JsNull
| JsBool (b : bool)
| JsNumber (n : Z)
| JsNaN
| JsString (s : string).

(** [ToBoolean] *)
Definition truthy (v : JsValue) : bool :=
  match v with
  | JsUndefined | JsNull | JsNaN => false
  | JsBool b => b
  | JsNumber n => negb (n =? 0)%Z
  | JsString s => negb (String.eqb s "")
  end.

(** [v === 'text'], and [v == 'text'] as well: against a string, a primitive
    that is not a string is compared as a number, and the literals used here
    are not numerals. *)
Definition is_string (v : JsValue) (text : string) : bool :=
  match v with
  | JsString s => String.eqb s text
  | _ => false
  end.

(** [a || b] on strings *)
Definition or_else (a b : string) : string :=
  if String.eqb a "" then b else a.

(** ** The provider's data *)

(** [stream] is the content the descriptor's stream yields to the one
    upload that reads it. *)
Record StrapiFile := {
  stream : string;
  hash : string;
  url : string;
  ext : string;
  mime : string;
  path : string
}.

(** The normalized configuration. [containerAccessType] exists in
    [part_001] only; [index.ts] builds its configuration without that
    property, and reading an absent property gives [undefined]. *)
Record Config := {
  account : string;
  accountKey : string;
  serviceBaseURL : string;
  containerName : string;
  defaultPath : string;
  cdnBaseURL : string;
  createContainerIfNotExists : JsValue;
  containerAccessType : JsValue
}.

(** The configuration object as the host passes it to [init]. *)
Record RawConfig := {
  raw_account : JsValue;
  raw_accountKey : JsValue;
  raw_serviceBaseURL : JsValue;
  raw_containerName : JsValue;
  raw_defaultPath : JsValue;
  raw_cdnBaseURL : JsValue;
  raw_createContainerIfNotExists : JsValue;
  raw_containerAccessType : JsValue
}.

Definition trimParam (input : JsValue) : string :=
  match input with
  | JsString s => trim s
  | _ => ""
  end.

Definition getFileName (path : string) (file : StrapiFile) : string :=
  trimParam (JsString path) ++ "/" ++ hash file ++ ext file.

(** ** Errors and effects *)

Inductive JsError :=
| Error (message : string)       (* [new Error(message)], thrown by the provider *)
| RestError (code : string).     (* a failure the client library reports *)

Inductive Result (A : Type) :=
| Ok (a : A)
| Throw (e : JsError).
Arguments Ok {A} a.
Arguments Throw {A} e.

(** An asynchronous function over a state [S]: awaiting it gives a value or a
    rejection, and the state it leaves behind is kept in both cases. *)
Definition M (S A : Type) : Type := S -> Result A * S.

Definition ret {S A} (a : A) : M S A := fun s => (Ok a, s).

Definition throw {S A} (e : JsError) : M S A := fun s => (Throw e, s).

Definition bind {S A B} (m : M S A) (k : A -> M S B) : M S B :=
  fun s =>
    match m s with
    | (Ok a, s') => k a s'
    | (Throw e, s') => (Throw e, s')
    end.

Notation "x <- m ;; k" := (bind m (fun x => k))
  (at level 100, m at next level, right associativity).
Notation "m ;;; k" := (bind m (fun _ => k))
  (at level 100, right associativity).

(** ** The storage account and the client library

    Neither is code of the provider. The account is modelled as the
    containers it holds; the client library's requests act on it as the
    service documents them. *)

Inductive PublicAccessType := access_container | access_blob.

Record Blob := {
  blob_content : string;
  blobContentType : string
}.

Record Container := {
  publicAccess : option PublicAccessType;
  blobs : gmap string Blob
}.

(** The world outside the provider: the storage account, the outcome of the
    requests still to come ([Some code]: the request fails with that error
    and changes nothing; [None], or nothing left: it is served), the clock
    and the host's time zone ([zone t true] is the offset of local time at
    the UTC time [t], [zone t false] the offset at the local time [t]). *)
Record World := {
  containers : gmap string Container;
  faults : list (option string);
  clock : Z;
  zone : Z -> bool -> Z
}.

Definition set_account (w : World) (cs : gmap string Container) (fs : list (option string)) : World :=
  {| containers := cs; faults := fs; clock := clock w; zone := zone w |}.

(** One request to the service. *)
Definition request {A} (serve : gmap string Container -> Result A * gmap string Container) : M World A :=
  fun w =>
    match faults w with
    | Some code :: rest => (Throw (RestError code), set_account w (containers w) rest)
    | None :: rest => let (r, cs) := serve (containers w) in (r, set_account w cs rest)
    | [] => let (r, cs) := serve (containers w) in (r, set_account w cs [])
    end.

(** The next [n] requests are served. *)
Fixpoint served (n : nat) (fs : list (option string)) : bool :=
  match n, fs with
  | O, _ => true
  | S _, [] => true
  | S n', None :: rest => served n' rest
  | S _, Some _ :: _ => false
  end.

Record Credential := { cred_account : string; cred_key : string }.
Record BlobServiceClient := { svc_url : string; svc_credential : Credential }.
Record ContainerClient := { cc_service : BlobServiceClient; cc_name : string }.
Record BlobClient := { bc_container : ContainerClient; bc_name : string }.

Definition new_BlobServiceClient (url : string) (credential : Credential) : BlobServiceClient :=
  {| svc_url := url; svc_credential := credential |}.

Definition svc_getContainerClient (svc : BlobServiceClient) (name : string) : ContainerClient :=
  {| cc_service := svc; cc_name := name |}.

(** [getBlobClient] and [getBlockBlobClient] address the same object. *)
Definition getBlobClient (cc : ContainerClient) (name : string) : BlobClient :=
  {| bc_container := cc; bc_name := name |}.
Definition getBlockBlobClient (cc : ContainerClient) (name : string) : BlobClient :=
  {| bc_container := cc; bc_name := name |}.

Definition bc_service_url (bc : BlobClient) : string := svc_url (cc_service (bc_container bc)).

Record BlobSASPermissions := {
  perm_read : bool;
  perm_add : bool;
  perm_create : bool;
  perm_write : bool;
  perm_delete : bool
}.

(** [BlobSASPermissions.from({ read: true })] *)
Definition permissions_read_only : BlobSASPermissions :=
  {| perm_read := true; perm_add := false; perm_create := false; perm_write := false; perm_delete := false |}.

Record SasOptions := {
  permissions : BlobSASPermissions;
  expiresOn : Z
}.

(** What the client library computes without the network: the URL of a blob
    client and the signed URL it generates from the shared key. *)
Class ClientLibrary := {
  client_url : BlobClient -> string;
  generateSasUrl : BlobClient -> SasOptions -> string
}.

(** The URL of a client starts with the URL its service client was made
    with. *)
Definition url_under_service `{ClientLibrary} : Prop :=
  forall bc, exists rest, client_url bc = bc_service_url bc ++ rest.

(** A signed URL is the client's URL followed by a non-empty query. *)
Definition sas_extends_url `{ClientLibrary} : Prop :=
  forall bc o, exists q, q <> "" /\ generateSasUrl bc o = client_url bc ++ q.

(** [container.exists()] *)
Definition container_exists (cc : ContainerClient) : M World bool :=
  request (fun cs => (Ok (bool_decide (is_Some (cs !! cc_name cc))), cs)).

Record ContainerProperties := { blobPublicAccess : option PublicAccessType }.

(** [container.getProperties()] *)
Definition getProperties (cc : ContainerClient) : M World ContainerProperties :=
  request (fun cs =>
    match cs !! cc_name cc with
    | Some c => (Ok {| blobPublicAccess := publicAccess c |}, cs)
    | None => (Throw (RestError "ContainerNotFound"), cs)
    end).

(** The [access] option of a creation request: absent for no public access,
    or one of the two public levels; the service refuses anything else. *)
Definition access_option (access : JsValue) : option (option PublicAccessType) :=
  match access with
  | JsUndefined | JsNull => Some None
  | JsString s =>
      if String.eqb s "container" then Some (Some access_container)
      else if String.eqb s "blob" then Some (Some access_blob)
      else None
  | _ => None
  end.

(** [container.createIfNotExists({ access })]; the answer is [succeeded]. *)
Definition createIfNotExists (cc : ContainerClient) (access : JsValue) : M World bool :=
  request (fun cs =>
    match access_option access with
    | None => (Throw (RestError "InvalidHeaderValue"), cs)
    | Some level =>
        match cs !! cc_name cc with
        | Some _ => (Ok false, cs)
        | None => (Ok true, <[cc_name cc := {| publicAccess := level; blobs := ∅ |}]> cs)
        end
    end).

(** [client.deleteIfExists()]; the answer is [succeeded]. *)
Definition deleteIfExists (bc : BlobClient) : M World bool :=
  request (fun cs =>
    match cs !! cc_name (bc_container bc) with
    | None => (Throw (RestError "ContainerNotFound"), cs)
    | Some c =>
        match blobs c !! bc_name bc with
        | None => (Ok false, cs)
        | Some _ =>
            (Ok true, <[cc_name (bc_container bc) :=
                         {| publicAccess := publicAccess c; blobs := delete (bc_name bc) (blobs c) |}]> cs)
        end
    end).

Record UploadStreamOptions := { blobHTTPHeaders_blobContentType : string }.

(** [client.uploadStream(stream, bufferSize, maxBuffers, options)]: the
    content of the stream becomes the blob, whatever was there before. *)
Definition uploadStream_request (bc : BlobClient) (content : string) (bufferSize maxBuffers : Z)
    (options : UploadStreamOptions) : M World unit :=
  request (fun cs =>
    match cs !! cc_name (bc_container bc) with
    | None => (Throw (RestError "ContainerNotFound"), cs)
    | Some c =>
        (Ok tt, <[cc_name (bc_container bc) :=
                   {| publicAccess := publicAccess c;
                      blobs := <[bc_name bc := {| blob_content := content;
                                                  blobContentType := blobHTTPHeaders_blobContentType options |}]> (blobs c) |}]> cs)
    end).

(** ** Dates

    A [Date] is its time value, in milliseconds since the epoch. *)
Definition msPerDay : Z := 86400000.

Definition LocalTime (w : World) (t : Z) : Z := t + zone w t true.
Definition UTC (w : World) (t : Z) : Z := t - zone w t false.

(** [DayFromYear] of ECMAScript. *)
Definition DayFromYear (y : Z) : Z :=
  365 * (y - 1970) + (y - 1969) / 4 - (y - 1901) / 100 + (y - 1601) / 400.

(** [new Date()] *)
Definition new_Date : M World Z := fun w => (Ok (clock w), w).

(** [new Date(year, 0)]: midnight of 1 January of [year], local time. *)
Definition new_Date_january (year : Z) : M World Z :=
  fun w => (Ok (UTC w (DayFromYear year * msPerDay)), w).

(** [d.setDate(d.getDate() + 1)]: the day number of the local time goes up
    by one and the time within the day stays. *)
Definition setDate_next_day (d : Z) : M World Z :=
  fun w => (Ok (UTC w (LocalTime w d + msPerDay)), w).

(** ** A call of the provider

    The host passes the file descriptor by reference and reads it after the
    call, also when the call is rejected. *)
Record Call := {
  remote : World;
  file : StrapiFile
}.

Definition liftW {A} (m : M World A) : M Call A :=
  fun c => let (r, w) := m (remote c) in (r, {| remote := w; file := file c |}).

Definition get_file : M Call StrapiFile := fun c => (Ok (file c), c).

Definition with_url (f : StrapiFile) (u : string) : StrapiFile :=
  {| stream := stream f; hash := hash f; url := u; ext := ext f; mime := mime f; path := path f |}.

(** [file.url = u] *)
Definition set_url (u : string) : M Call unit :=
  fun c => (Ok tt, {| remote := remote c; file := with_url (file c) u |}).

Record uploadOptionsT := { bufferSize : Z; maxBuffers : Z }.

Definition uploadOptions : uploadOptionsT :=
  {| bufferSize := 4 * 1024 * 1024; maxBuffers := 20 |}.

(** [handleDelete], the same in both files. *)
Definition handleDelete `{ClientLibrary} (config : Config) (blobSvcClient : BlobServiceClient) : M Call unit :=
  f <- get_file ;;
  let containerClient := svc_getContainerClient blobSvcClient (containerName config) in
  let client := getBlobClient containerClient (getFileName (defaultPath config) f) in
  liftW (deleteIfExists client) ;;;
  set_url (client_url client).

(** The object [getSignedUrl] resolves to, [{ url }]. *)
Record UrlObject := { url_of : string }.

(** ** [src/src/index.ts] *)
Module IndexTs.

Definition makeBlobServiceClient (config : Config) : BlobServiceClient * option (M World string) :=
  let credential := {| cred_account := account config; cred_key := accountKey config |} in
  let blobServiceClient := new_BlobServiceClient (serviceBaseURL config) credential in
  (blobServiceClient,
   if truthy (createContainerIfNotExists config) then
     let containerClient := svc_getContainerClient blobServiceClient (containerName config) in
     (* not awaited: the request and its log line run after [init] has returned *)
     Some (response <- createIfNotExists containerClient JsUndefined ;;
           ret ("container " ++ containerName config ++ " "
                ++ (if response then "created successfully" else "already existed")))
   else None).

Definition handleUpload `{ClientLibrary} (config : Config) (blobSvcClient : BlobServiceClient) : M Call unit :=
  f <- get_file ;;
  let containerClient := svc_getContainerClient blobSvcClient (containerName config) in
  let filename := getFileName (defaultPath config) f in
  let client := getBlockBlobClient containerClient filename in
  let options := {| blobHTTPHeaders_blobContentType := mime f |} in
  set_url (if truthy (JsString (cdnBaseURL config))
           then replace (client_url client) (serviceBaseURL config) (cdnBaseURL config)
           else client_url client) ;;;
  liftW (uploadStream_request client (stream f) (bufferSize uploadOptions) (maxBuffers uploadOptions) options).

Definition getSignedUrl `{ClientLibrary} (config : Config) (blobSvcClient : BlobServiceClient) : M Call UrlObject :=
  f <- get_file ;;
  let containerClient := svc_getContainerClient blobSvcClient (containerName config) in
  let client := getBlobClient containerClient (getFileName (defaultPath config) f) in
  today <- liftW new_Date ;;
  expiresOn <- liftW (setDate_next_day today) ;;
  let url := generateSasUrl client {| permissions := permissions_read_only; expiresOn := expiresOn |} in
  ret {| url_of := url |}.

Definition container_missing_message (config : Config) : string :=
  "upload provider error : container " ++ containerName config
  ++ " does not exist. Either use createContainerIfNotExists or create the container manually in "
  ++ account config ++ " storage account.".

(** [isPrivate] calls itself without a bound; [fuel] counts the calls the
    model follows, and [None] is a run that needs more. *)
Fixpoint isPrivate (fuel : nat) (config : Config) (blobSvcClient : BlobServiceClient) (w : World)
    : option (Result bool * World) :=
  match fuel with
  | O => None
  | S fuel' =>
      let container := svc_getContainerClient blobSvcClient (containerName config) in
      match container_exists container w with
      | (Throw e, w1) => Some (Throw e, w1)
      | (Ok true, w1) =>
          Some ((properties <- getProperties container ;;
                 ret (bool_decide (blobPublicAccess properties = None))) w1)
      | (Ok false, w1) =>
          if truthy (createContainerIfNotExists config) then
            match createIfNotExists container JsUndefined w1 with
            | (Throw e, w2) => Some (Throw e, w2)
            | (Ok _, w2) => isPrivate fuel' config blobSvcClient w2
            end
          else Some (Throw (Error (container_missing_message config)), w1)
      end
  end.

(** The object literal [init] assigns to [config]. *)
Definition init_config (config : RawConfig) : Config :=
  {| containerName := trimParam (raw_containerName config);
     account := trimParam (raw_account config);
     accountKey := trimParam (raw_accountKey config);
     createContainerIfNotExists :=
       match raw_createContainerIfNotExists config with
       | JsUndefined => JsBool true
       | v => v
       end;
     defaultPath := trimParam (raw_defaultPath config);
     cdnBaseURL := trimParam (raw_cdnBaseURL config);
     serviceBaseURL :=
       or_else (trimParam (raw_serviceBaseURL config))
               ("https://" ++ trimParam (raw_account config) ++ ".blob.core.windows.net");
     containerAccessType := JsUndefined |}.

Module Methods.
Record t := {
  upload : M Call unit;
  uploadStream : M Call unit;
  delete : M Call unit;
  getSignedUrl : M Call UrlObject;
  isPrivate : nat -> World -> option (Result bool * World)
}.
End Methods.

Definition init `{ClientLibrary} (config : RawConfig) : Methods.t :=
  let config := init_config config in
  let blobSvcClient := fst (makeBlobServiceClient config) in
  {| Methods.upload := handleUpload config blobSvcClient;
     Methods.uploadStream := handleUpload config blobSvcClient;
     Methods.delete := handleDelete config blobSvcClient;
     Methods.getSignedUrl := getSignedUrl config blobSvcClient;
     Methods.isPrivate := fun fuel => isPrivate fuel config blobSvcClient |}.

(** The request [init] leaves running. *)
Definition init_provisioning (config : RawConfig) : option (M World string) :=
  snd (makeBlobServiceClient (init_config config)).

End IndexTs.

(** ** [src/unnamed/part_001] *)
Module Part001.

Definition getContainerClient (blobServiceClient : BlobServiceClient) (config : Config) : ContainerClient :=
  svc_getContainerClient blobServiceClient (containerName config).

Definition makeBlobServiceClient (config : Config) : BlobServiceClient * option (M World string) :=
  let credential := {| cred_account := account config; cred_key := accountKey config |} in
  let blobServiceClient := new_BlobServiceClient (serviceBaseURL config) credential in
  (blobServiceClient,
   if truthy (createContainerIfNotExists config) then
     let containerClient := getContainerClient blobServiceClient config in
     (* not awaited: the request and its log line run after [init] has returned *)
     Some (response <- createIfNotExists containerClient
                         (if is_string (containerAccessType config) "private"
                          then JsUndefined else containerAccessType config) ;;
           ret ("container " ++ containerName config ++ " "
                ++ (if response then "created successfully" else "already existed")))
   else None).

Definition handleUpload `{ClientLibrary} (config : Config) (blobSvcClient : BlobServiceClient) : M Call unit :=
  f <- get_file ;;
  let containerClient := getContainerClient blobSvcClient config in
  let filename := getFileName (defaultPath config) f in
  let client := getBlockBlobClient containerClient filename in
  let options := {| blobHTTPHeaders_blobContentType := mime f |} in
  url <- (if is_string (containerAccessType config) "private"
          then (expiry <- liftW (new_Date_january 3000) ;;
                ret (generateSasUrl client {| permissions := permissions_read_only; expiresOn := expiry |}))
          else ret (client_url client)) ;;
  set_url (if truthy (JsString (cdnBaseURL config))
           then replace url (serviceBaseURL config) (cdnBaseURL config)
           else url) ;;;
  liftW (uploadStream_request client (stream f) (bufferSize uploadOptions) (maxBuffers uploadOptions) options).

(** The object literal [init] assigns to [config]. *)
Definition init_config (config : RawConfig) : Config :=
  {| containerName := trimParam (raw_containerName config);
     account := trimParam (raw_account config);
     accountKey := trimParam (raw_accountKey config);
     createContainerIfNotExists :=
       match raw_createContainerIfNotExists config with
       | JsUndefined => JsBool true
       | v => v
       end;
     defaultPath := trimParam (raw_defaultPath config);
     cdnBaseURL := trimParam (raw_cdnBaseURL config);
     containerAccessType := raw_containerAccessType config;
     serviceBaseURL :=
       or_else (trimParam (raw_serviceBaseURL config))
               ("https://" ++ trimParam (raw_account config) ++ ".blob.core.windows.net") |}.

Module Methods.
Record t := {
  upload : M Call unit;
  uploadStream : M Call unit;
  delete : M Call unit
}.
End Methods.

Definition init `{ClientLibrary} (config : RawConfig) : Methods.t :=
  let config := init_config config in
  let blobSvcClient := fst (makeBlobServiceClient config) in
  {| Methods.upload := handleUpload config blobSvcClient;
     Methods.uploadStream := handleUpload config blobSvcClient;
     Methods.delete := handleDelete config blobSvcClient |}.

(** The request [init] leaves running. *)
Definition init_provisioning (config : RawConfig) : option (M World string) :=
  snd (makeBlobServiceClient (init_config config)).

End Part001.

(** ** A client library and a world to run the provider on *)

(** URLs are built by joining the parts with a slash; a signed URL carries
    the permission letter and the expiry in its query. *)
Definition test_library : ClientLibrary :=
  {| client_url := fun bc =>
       bc_service_url bc ++ "/" ++ cc_name (bc_container bc) ++ "/" ++ bc_name bc;
     generateSasUrl := fun bc o =>
       (bc_service_url bc ++ "/" ++ cc_name (bc_container bc) ++ "/" ++ bc_name bc)
       ++ "?sp=" ++ (if perm_read (permissions o) then "r" else "")
       ++ "&se=" ++ (if (expiresOn o <? 32503680000000)%Z then "soon" else "3000-01-01")
       ++ "&sig=" ++ cred_key (svc_credential (cc_service (bc_container bc))) |}.

Definition utc_zone : Z -> bool -> Z := fun _ _ => 0%Z.

Definition world_of (cs : gmap string Container) (fs : list (option string)) : World :=
  {| containers := cs; faults := fs; clock := 1793620800000; zone := utc_zone |}.

Definition photo : StrapiFile :=
  {| stream := "PNG-bytes"; hash := "abc"; url := ""; ext := ".png"; mime := "image/png"; path := "" |}.

Definition raw_example : RawConfig :=
  {| raw_account := JsString "acc";
     raw_accountKey := JsString "key";
     raw_serviceBaseURL := JsUndefined;
     raw_containerName := JsString "media";
     raw_defaultPath := JsString " assets ";
     raw_cdnBaseURL := JsUndefined;
     raw_createContainerIfNotExists := JsUndefined;
     raw_containerAccessType := JsUndefined |}.

Definition with_access (access : JsValue) (config : RawConfig) : RawConfig :=
  {| raw_account := raw_account config;
     raw_accountKey := raw_accountKey config;
     raw_serviceBaseURL := raw_serviceBaseURL config;
     raw_containerName := raw_containerName config;
     raw_defaultPath := raw_defaultPath config;
     raw_cdnBaseURL := raw_cdnBaseURL config;
     raw_createContainerIfNotExists := raw_createContainerIfNotExists config;
     raw_containerAccessType := access |}.

Definition with_cdn (cdn : JsValue) (config : RawConfig) : RawConfig :=
  {| raw_account := raw_account config;
     raw_accountKey := raw_accountKey config;
     raw_serviceBaseURL := raw_serviceBaseURL config;
     raw_containerName := raw_containerName config;
     raw_defaultPath := raw_defaultPath config;
     raw_cdnBaseURL := cdn;
     raw_createContainerIfNotExists := raw_createContainerIfNotExists config;
     raw_containerAccessType := raw_containerAccessType config |}.

Definition with_autocreate (flag : JsValue) (config : RawConfig) : RawConfig :=
  {| raw_account := raw_account config;
     raw_accountKey := raw_accountKey config;
     raw_serviceBaseURL := raw_serviceBaseURL config;
     raw_containerName := raw_containerName config;
     raw_defaultPath := raw_defaultPath config;
     raw_cdnBaseURL := raw_cdnBaseURL config;
     raw_createContainerIfNotExists := flag;
     raw_containerAccessType := raw_containerAccessType config |}.

Definition private_container : Container := {| publicAccess := None; blobs := ∅ |}.

(** A normalized configuration handed to [init] again: the same object,
    read as raw options. *)
Definition to_raw (config : Config) : RawConfig :=
  {| raw_account := JsString (account config);
     raw_accountKey := JsString (accountKey config);
     raw_serviceBaseURL := JsString (serviceBaseURL config);
     raw_containerName := JsString (containerName config);
     raw_defaultPath := JsString (defaultPath config);
     raw_cdnBaseURL := JsString (cdnBaseURL config);
     raw_createContainerIfNotExists := createContainerIfNotExists config;
     raw_containerAccessType := containerAccessType config |}.

(** A client library that reports its URLs under a host of its own,
    whatever URL the service client was made with. *)
Definition detached_library : ClientLibrary :=
  {| client_url := fun bc =>
       "https://storage.local/" ++ cc_name (bc_container bc) ++ "/" ++ bc_name bc;
     generateSasUrl := fun bc o =>
       ("https://storage.local/" ++ cc_name (bc_container bc) ++ "/" ++ bc_name bc)
       ++ "?sp=r&sig=" ++ cred_key (svc_credential (cc_service (bc_container bc))) |}.




(** * Properties *)

(** ** Strings *)

Lemma string_app_assoc (a b c : string) : (a ++ b) ++ c = a ++ (b ++ c).
Proof. induction a as [|x a IH]; simpl; [reflexivity | now rewrite IH]. Qed.

Lemma string_app_nil_r (a : string) : a ++ "" = a.
Proof. induction a as [|x a IH]; simpl; [reflexivity | now rewrite IH]. Qed.

Lemma all_white_space_app (a b : string) :
  all_white_space (a ++ b) = all_white_space a && all_white_space b.
Proof.
  induction a as [|x a IH]; simpl; [reflexivity|].
  rewrite IH. apply andb_assoc.
Qed.

Lemma trim_start_white (l s : string) :
  all_white_space l = true -> trim_start (l ++ s) = trim_start s.
Proof.
  induction l as [|x l IH]; simpl; intros Hl; [reflexivity|].
  apply andb_prop in Hl as [Hx Hl]. rewrite Hx. auto.
Qed.

Lemma trim_start_all_white (s : string) :
  all_white_space s = true -> trim_start s = "".
Proof.
  intros Hs. rewrite <- (string_app_nil_r s). now rewrite trim_start_white.
Qed.

Lemma trim_start_keeps_tail (s r : string) :
  all_white_space s = false -> trim_start (s ++ r) = trim_start s ++ r.
Proof.
  induction s as [|x s IH]; simpl; intros Hs; [discriminate|].
  destruct (is_white_space x); simpl in *; auto.
Qed.

Lemma trim_end_all_white (r : string) :
  all_white_space r = true -> trim_end r = "".
Proof.
  induction r as [|x r IH]; simpl; intros Hr; [reflexivity|].
  apply andb_prop in Hr as [Hx Hr]. now rewrite IH, Hx.
Qed.

Lemma trim_end_white (s r : string) :
  all_white_space r = true -> trim_end (s ++ r) = trim_end s.
Proof.
  intros Hr. induction s as [|x s IH]; simpl.
  - now apply trim_end_all_white.
  - now rewrite IH.
Qed.

Lemma trim_white (l p r : string) :
  all_white_space l = true -> all_white_space r = true ->
  trim (l ++ p ++ r) = trim p.
Proof.
  intros Hl Hr. unfold trim. rewrite trim_start_white by assumption.
  destruct (all_white_space p) eqn:Hp.
  - rewrite (trim_start_all_white p) by assumption.
    rewrite trim_start_all_white; [reflexivity|].
    now rewrite all_white_space_app, Hp, Hr.
  - rewrite trim_start_keeps_tail by assumption. now apply trim_end_white.
Qed.

Lemma trim_start_head (s : string) (c : ascii) :
  head_char (trim_start s) = Some c -> is_white_space c = false.
Proof.
  induction s as [|x s IH]; simpl; [discriminate|].
  destruct (is_white_space x) eqn:Hx; [assumption|].
  simpl. intros [= <-]. assumption.
Qed.

Lemma trim_end_head (s : string) (c : ascii) :
  head_char (trim_end s) = Some c -> head_char s = Some c.
Proof.
  destruct s as [|x s]; simpl; [discriminate|].
  destruct (trim_end s); [destruct (is_white_space x)|]; simpl; auto; discriminate.
Qed.

Lemma trim_end_last (s : string) (c : ascii) :
  last_char (trim_end s) = Some c -> is_white_space c = false.
Proof.
  induction s as [|x s IH]; simpl; [discriminate|].
  destruct (trim_end s) as [|y t] eqn:Ht.
  - destruct (is_white_space x) eqn:Hx; simpl; [discriminate|].
    intros [= <-]. assumption.
  - exact IH.
Qed.

Lemma trim_no_outer_white (s : string) (c : ascii) :
  head_char (trim s) = Some c \/ last_char (trim s) = Some c -> is_white_space c = false.
Proof.
  unfold trim. intros [Hc | Hc].
  - eapply trim_start_head, trim_end_head, Hc.
  - eapply trim_end_last, Hc.
Qed.

Lemma strip_prefix_app (p r : string) : strip_prefix p (p ++ r) = Some r.
Proof.
  induction p as [|x p IH]; simpl; [reflexivity|].
  now rewrite Ascii.eqb_refl.
Qed.

Lemma split_at_first_prefix (p r : string) :
  split_at_first p (p ++ r) = Some ("", r).
Proof.
  destruct (p ++ r) as [|x s] eqn:E; simpl; rewrite <- E, strip_prefix_app; reflexivity.
Qed.

Lemma GetSubstitution_plain (matched before after template : string) :
  has_char "$" template = false ->
  GetSubstitution matched before after template = template.
Proof.
  induction template as [|x t IH]; cbn [has_char GetSubstitution]; [reflexivity|].
  intros Ht. apply orb_false_elim in Ht as [Hx Ht].
  rewrite Hx. now rewrite IH.
Qed.

(** When the text starts with the pattern, the pattern is what [replace]
    substitutes. *)
Lemma replace_prefix (p r repl : string) :
  replace (p ++ r) p repl = GetSubstitution p "" r repl ++ r.
Proof. unfold replace. now rewrite split_at_first_prefix. Qed.

Lemma replace_prefix_plain (p r repl : string) :
  has_char "$" repl = false -> replace (p ++ r) p repl = repl ++ r.
Proof. intros H. now rewrite replace_prefix, GetSubstitution_plain. Qed.

Lemma truthy_string (s : string) : truthy (JsString s) = true <-> s <> "".
Proof.
  simpl. destruct (String.eqb_spec s ""); simpl; split; intros; congruence.
Qed.

Lemma is_string_true (v : JsValue) (text : string) :
  is_string v text = true <-> v = JsString text.
Proof.
  destruct v; simpl; split; try discriminate; intros H.
  - apply String.eqb_eq in H. now subst.
  - injection H as ->. apply String.eqb_refl.
Qed.

Lemma trim_start_fixed (s : string) :
  (forall c, head_char s = Some c -> is_white_space c = false) -> trim_start s = s.
Proof.
  destruct s as [|x s]; simpl; intros Hs; [reflexivity|].
  now rewrite (Hs x eq_refl).
Qed.

Lemma trim_end_idempotent (s : string) : trim_end (trim_end s) = trim_end s.
Proof.
  induction s as [|x s IH]; simpl; [reflexivity|].
  destruct (trim_end s) as [|y t] eqn:Ht.
  - destruct (is_white_space x) eqn:Hx; simpl; [reflexivity | now rewrite Hx].
  - change (trim_end (String x (String y t))) with
      (match trim_end (String y t) with
       | "" => if is_white_space x then "" else String x ""
       | r => String x r
       end).
    now rewrite IH.
Qed.

Lemma trim_idempotent (s : string) : trim (trim s) = trim s.
Proof.
  unfold trim at 1. rewrite trim_start_fixed.
  - apply trim_end_idempotent.
  - intros c Hc. apply (trim_no_outer_white s). now left.
Qed.

Lemma trimParam_trimmed (v : JsValue) : trim (trimParam v) = trimParam v.
Proof. destruct v; try reflexivity. apply trim_idempotent. Qed.

(** ** The object key *)

(** C7 — [getFileName] is a function of the path, the hash and the extension
    alone: files that agree on hash and extension get the same key, which is
    the trimmed path, a slash, the hash and the extension. Whitespace before
    and after the path is dropped, so the trimmed path neither starts nor
    ends with a whitespace character, and [getFileName("assets", {hash:
    "abc", ext: ".png"})] is ["assets/abc.png"]. *)
Theorem getFileName_key (l p r : string) (f g : StrapiFile) :
  all_white_space l = true -> all_white_space r = true ->
  hash f = hash g -> ext f = ext g ->
  getFileName (l ++ p ++ r) f = trim p ++ "/" ++ hash g ++ ext g
  /\ getFileName (l ++ p ++ r) f = getFileName p g
  /\ (forall c, head_char (trim (l ++ p ++ r)) = Some c \/ last_char (trim (l ++ p ++ r)) = Some c ->
                is_white_space c = false)
  /\ getFileName "assets" photo = "assets/abc.png".
Proof.
  intros Hl Hr Hh He. unfold getFileName, trimParam.
  rewrite (trim_white l p r Hl Hr), Hh, He.
  repeat split; try reflexivity.
  intros c Hc. now apply (trim_no_outer_white p).
Qed.

Lemma getFileName_key_witness :
  getFileName "   assets  " photo = "assets/abc.png".
Proof.
  exact (proj1 (getFileName_key "   " "assets" "  " photo
                  {| stream := ""; hash := "abc"; url := "https://old"; ext := ".png"; mime := ""; path := "/" |}
                  eq_refl eq_refl eq_refl eq_refl)).
Defined.

(** ** Normalization *)

(** What [init] does to the raw options, in both files: every option it
    trims comes out trimmed, and is empty when the raw value is not a
    string; the service URL is the raw one when that is not blank and the
    account's default endpoint otherwise; auto-creation is on when the raw
    option is [undefined] and the raw value otherwise. *)
Lemma init_config_normalizes (raw : RawConfig) :
  let config := Part001.init_config raw in
  (account config = trimParam (raw_account raw)
   /\ accountKey config = trimParam (raw_accountKey raw)
   /\ containerName config = trimParam (raw_containerName raw)
   /\ defaultPath config = trimParam (raw_defaultPath raw)
   /\ cdnBaseURL config = trimParam (raw_cdnBaseURL raw))
  /\ (trimParam (raw_serviceBaseURL raw) <> "" ->
      serviceBaseURL config = trimParam (raw_serviceBaseURL raw))
  /\ (trimParam (raw_serviceBaseURL raw) = "" ->
      serviceBaseURL config = "https://" ++ account config ++ ".blob.core.windows.net")
  /\ serviceBaseURL config <> ""
  /\ (raw_createContainerIfNotExists raw = JsUndefined ->
      createContainerIfNotExists config = JsBool true)
  /\ (raw_createContainerIfNotExists raw <> JsUndefined ->
      createContainerIfNotExists config = raw_createContainerIfNotExists raw)
  /\ containerAccessType config = raw_containerAccessType raw
  /\ IndexTs.init_config raw =
     {| account := account config; accountKey := accountKey config;
        serviceBaseURL := serviceBaseURL config; containerName := containerName config;
        defaultPath := defaultPath config; cdnBaseURL := cdnBaseURL config;
        createContainerIfNotExists := createContainerIfNotExists config;
        containerAccessType := JsUndefined |}.
Proof.
  cbn -[trimParam String.append]. unfold IndexTs.init_config, or_else.
  destruct (String.eqb_spec (trimParam (raw_serviceBaseURL raw)) "") as [E|E];
    repeat split; try congruence; try (simpl; discriminate);
    try (intros ->; reflexivity);
    destruct (raw_createContainerIfNotExists raw); congruence.
Qed.

(** Trimming again changes none of the trimmed options, and an option that
    is required but absent comes out as the empty string. *)
Lemma init_config_trimmed (raw : RawConfig) :
  let config := Part001.init_config raw in
  (trim (account config) = account config
   /\ trim (accountKey config) = accountKey config
   /\ trim (containerName config) = containerName config
   /\ trim (defaultPath config) = defaultPath config
   /\ trim (cdnBaseURL config) = cdnBaseURL config)
  /\ (raw_account raw = JsUndefined -> account config = "")
  /\ (raw_accountKey raw = JsUndefined -> accountKey config = "")
  /\ (raw_containerName raw = JsUndefined -> containerName config = "")
  /\ (raw_defaultPath raw = JsUndefined -> defaultPath config = "").
Proof.
  cbn -[trimParam trim]. rewrite !trimParam_trimmed.
  repeat split; intros ->; reflexivity.
Qed.

(** C8 — the options [account], [accountKey], [containerName] and
    [defaultPath] are the only ones given, and [containerAccessType] is not:
    [init] of [part_001] leaves the access type [undefined], it does not make
    it ['private']. The container is then created with no public access,
    and an upload into it writes the plain URL, without a signature. *)
Theorem init_leaves_access_type_undefined :
  raw_containerAccessType raw_example = JsUndefined
  /\ containerAccessType (Part001.init_config raw_example) = JsUndefined
  /\ containerAccessType (Part001.init_config raw_example) <> JsString "private"
  /\ match Part001.init_provisioning raw_example with
     | Some task => containers (snd (task (world_of ∅ []))) !! "media" = Some private_container
     | None => False
     end
  /\ url (file (snd (Part001.Methods.upload (@Part001.init test_library raw_example)
                       {| remote := world_of {["media" := private_container]} []; file := photo |})))
     = "https://acc.blob.core.windows.net/media/assets/abc.png"
  /\ url (file (snd (Part001.Methods.upload
                       (@Part001.init test_library (with_access (JsString "private") raw_example))
                       {| remote := world_of {["media" := private_container]} []; file := photo |})))
     = "https://acc.blob.core.windows.net/media/assets/abc.png?sp=r&se=3000-01-01&sig=key".
Proof.
  split; [reflexivity|]. split; [reflexivity|]. split; [discriminate|].
  split; [vm_compute; reflexivity|]. split; vm_compute; reflexivity.
Qed.

(** ** Upload *)

(** What a run of [handleUpload] of [part_001] comes to: the descriptor gets
    its URL, then the outcome is the outcome of the one write request. *)
Lemma Part001_handleUpload_run `{ClientLibrary} (config : Config) (svc : BlobServiceClient) (c : Call) :
  let client := getBlockBlobClient (Part001.getContainerClient svc config)
                  (getFileName (defaultPath config) (file c)) in
  let signed := generateSasUrl client
                  {| permissions := permissions_read_only;
                     expiresOn := UTC (remote c) (DayFromYear 3000 * msPerDay) |} in
  let u := if is_string (containerAccessType config) "private" then signed else client_url client in
  let written := if truthy (JsString (cdnBaseURL config))
                 then replace u (serviceBaseURL config) (cdnBaseURL config) else u in
  let write := uploadStream_request client (stream (file c)) (bufferSize uploadOptions)
                 (maxBuffers uploadOptions) {| blobHTTPHeaders_blobContentType := mime (file c) |}
                 (remote c) in
  Part001.handleUpload config svc c =
  (fst write, {| remote := snd write; file := with_url (file c) written |}).
Proof.
  unfold Part001.handleUpload, bind, get_file, set_url, liftW, ret, new_Date_january.
  destruct (is_string (containerAccessType config) "private"); simpl;
    match goal with |- context [uploadStream_request ?a ?b ?c ?d ?e ?w] =>
      destruct (uploadStream_request a b c d e w) end; reflexivity.
Qed.

(** The same for [handleUpload] of [index.ts], which never signs. *)
Lemma IndexTs_handleUpload_run `{ClientLibrary} (config : Config) (svc : BlobServiceClient) (c : Call) :
  let client := getBlockBlobClient (svc_getContainerClient svc (containerName config))
                  (getFileName (defaultPath config) (file c)) in
  let written := if truthy (JsString (cdnBaseURL config))
                 then replace (client_url client) (serviceBaseURL config) (cdnBaseURL config)
                 else client_url client in
  let write := uploadStream_request client (stream (file c)) (bufferSize uploadOptions)
                 (maxBuffers uploadOptions) {| blobHTTPHeaders_blobContentType := mime (file c) |}
                 (remote c) in
  IndexTs.handleUpload config svc c =
  (fst write, {| remote := snd write; file := with_url (file c) written |}).
Proof.
  unfold IndexTs.handleUpload, bind, get_file, set_url, liftW, ret. simpl.
  match goal with |- context [uploadStream_request ?a ?b ?c ?d ?e ?w] =>
    destruct (uploadStream_request a b c d e w) end; reflexivity.
Qed.

(** C1 — what upload and uploadStream write into the descriptor. In
    [part_001] it is the signed URL, read permission only and expiring at
    midnight of 1 January 3000 local time, when [containerAccessType] is
    ['private'], and the plain URL when it is ['container'] or ['blob']; in
    [index.ts] it is always the plain URL. Without a CDN base URL that URL is
    written as it is. For a client whose URL starts with the service base
    URL and whose signed URL is that URL with a query after it, and a CDN
    base URL without a dollar sign: either URL is written under the CDN base
    URL when there is one, and among the three access types the written URL
    is the signed one exactly when the type is ['private']. *)
Theorem upload_url_signed_iff_private `{ClientLibrary} (config : Config) (c : Call) :
  let svc := fst (Part001.makeBlobServiceClient config) in
  let client := getBlockBlobClient (Part001.getContainerClient svc config)
                  (getFileName (defaultPath config) (file c)) in
  let signed := generateSasUrl client
                  {| permissions := permissions_read_only;
                     expiresOn := UTC (remote c) 32503680000000 |} in
  let base := if truthy (JsString (cdnBaseURL config))
              then cdnBaseURL config else serviceBaseURL config in
  let written := url (file (snd (Part001.handleUpload config svc c))) in
  let written_index :=
    url (file (snd (IndexTs.handleUpload config (fst (IndexTs.makeBlobServiceClient config)) c))) in
  (cdnBaseURL config = "" ->
   (containerAccessType config = JsString "private" -> written = signed)
   /\ (containerAccessType config = JsString "container"
       \/ containerAccessType config = JsString "blob" -> written = client_url client)
   /\ written_index = client_url client)
  /\ (url_under_service -> sas_extends_url -> has_char "$" (cdnBaseURL config) = false ->
      exists rest q,
        client_url client = serviceBaseURL config ++ rest
        /\ q <> "" /\ signed = client_url client ++ q
        /\ (containerAccessType config = JsString "private" -> written = base ++ rest ++ q)
        /\ (containerAccessType config = JsString "container"
            \/ containerAccessType config = JsString "blob" -> written = base ++ rest)
        /\ (containerAccessType config = JsString "private"
            \/ containerAccessType config = JsString "container"
            \/ containerAccessType config = JsString "blob" ->
            (written = base ++ rest ++ q <-> containerAccessType config = JsString "private"))
        /\ written_index = base ++ rest)
  /\ (forall raw,
        Part001.Methods.upload (Part001.init raw) = Part001.Methods.uploadStream (Part001.init raw)
        /\ Part001.Methods.upload (Part001.init raw)
           = Part001.handleUpload (Part001.init_config raw)
               (fst (Part001.makeBlobServiceClient (Part001.init_config raw)))
        /\ IndexTs.Methods.upload (IndexTs.init raw) = IndexTs.Methods.uploadStream (IndexTs.init raw)
        /\ IndexTs.Methods.upload (IndexTs.init raw)
           = IndexTs.handleUpload (IndexTs.init_config raw)
               (fst (IndexTs.makeBlobServiceClient (IndexTs.init_config raw)))).
Proof.
  intros svc client signed base written written_index.
  pose (cdn_rule := fun u => if truthy (JsString (cdnBaseURL config))
                             then replace u (serviceBaseURL config) (cdnBaseURL config) else u).
  assert (Hw : written = cdn_rule (if is_string (containerAccessType config) "private"
                                   then signed else client_url client)).
  { subst written. now rewrite Part001_handleUpload_run. }
  assert (Hi : written_index = cdn_rule (client_url client)).
  { subst written_index. now rewrite IndexTs_handleUpload_run. }
  split; [|split; [|intros raw; repeat split]].
  - intros Hcdn.
    assert (Hrule : forall u, cdn_rule u = u) by (intros u; subst cdn_rule; cbv beta; now rewrite Hcdn).
    rewrite Hw, Hi, !Hrule. split; [|split; [|reflexivity]].
    + now intros ->.
    + now intros [-> | ->].
  - intros Hurl Hsas Hdollar.
    destruct (Hurl client) as [rest Hrest].
    change (bc_service_url client) with (serviceBaseURL config) in Hrest.
    destruct (Hsas client {| permissions := permissions_read_only;
                             expiresOn := UTC (remote c) 32503680000000 |}) as (q & Hq & Hsigned).
    fold signed in Hsigned.
    assert (Hplain_rule : cdn_rule (client_url client) = base ++ rest).
    { subst cdn_rule base. cbv beta. rewrite Hrest.
      destruct (truthy (JsString (cdnBaseURL config))); [|reflexivity].
      now apply replace_prefix_plain. }
    assert (Hsigned_rule : cdn_rule signed = base ++ rest ++ q).
    { subst cdn_rule base. cbv beta. rewrite Hsigned, Hrest, string_app_assoc.
      destruct (truthy (JsString (cdnBaseURL config))); [|reflexivity].
      now apply replace_prefix_plain. }
    assert (Hp : containerAccessType config = JsString "private" -> written = base ++ rest ++ q).
    { intros Hprivate. rewrite Hw, Hprivate. exact Hsigned_rule. }
    assert (Hn : containerAccessType config = JsString "container"
                 \/ containerAccessType config = JsString "blob" -> written = base ++ rest).
    { intros [Hother | Hother]; rewrite Hw, Hother; exact Hplain_rule. }
    exists rest, q.
    split; [exact Hrest|]. split; [exact Hq|]. split; [exact Hsigned|].
    split; [exact Hp|]. split; [exact Hn|]. split; [|now rewrite Hi].
    intros [Hprivate | Hother].
    + split; [intros _; exact Hprivate | exact Hp].
    + split; [|exact Hp]. intros Hcase. exfalso.
      rewrite (Hn Hother) in Hcase.
      apply String.app_inj in Hcase.
      rewrite <- (string_app_nil_r rest) in Hcase at 1.
      apply String.app_inj in Hcase. congruence.
Qed.

Lemma test_library_url_under_service : @url_under_service test_library.
Proof. intros bc. eexists. reflexivity. Qed.

Lemma test_library_sas_extends_url : @sas_extends_url test_library.
Proof.
  intros bc o.
  exists ("?sp=" ++ (if perm_read (permissions o) then "r" else "")
          ++ "&se=" ++ (if (expiresOn o <? 32503680000000)%Z then "soon" else "3000-01-01")
          ++ "&sig=" ++ cred_key (svc_credential (cc_service (bc_container bc)))).
  split; [discriminate | reflexivity].
Qed.

Lemma upload_url_signed_iff_private_witness :
  let config := Part001.init_config
                  (with_cdn (JsString "https://cdn.example.com")
                     (with_access (JsString "private") raw_example)) in
  let plain := Part001.init_config (with_access (JsString "container") raw_example) in
  let c := {| remote := world_of {["media" := private_container]} []; file := photo |} in
  url (file (snd (@Part001.handleUpload test_library config
                    (fst (Part001.makeBlobServiceClient config)) c)))
  = "https://cdn.example.com/media/assets/abc.png?sp=r&se=3000-01-01&sig=key"
  /\ (clock (remote c) < UTC (remote c) 32503680000000)%Z
  /\ url (file (snd (@Part001.handleUpload test_library plain
                       (fst (Part001.makeBlobServiceClient plain)) c)))
     = "https://acc.blob.core.windows.net/media/assets/abc.png".
Proof.
  intros config plain c. split; [|split; [reflexivity|]].
  - destruct (proj1 (proj2 (@upload_url_signed_iff_private test_library config c))
                test_library_url_under_service test_library_sas_extends_url eq_refl)
      as (rest & q & Hrest & _ & Hsigned & Hprivate & _).
    refine (eq_trans (Hprivate eq_refl) _).
    apply (String.app_inj (serviceBaseURL config)) in Hrest. subst rest.
    apply (String.app_inj _) in Hsigned. subst q. reflexivity.
  - exact (proj1 (proj2 (proj1 (@upload_url_signed_iff_private test_library plain c) eq_refl))
             (or_introl eq_refl)).
Defined.

(** C1, as the specification words it, fails on [index.ts]: its
    configuration has no access type, and with the raw option set to
    ['private'] upload and uploadStream write the object's plain URL, which
    is no signed URL of the object. *)
Lemma upload_index_ts_never_signs :
  let raw := with_access (JsString "private") raw_example in
  let config := IndexTs.init_config raw in
  let svc := fst (IndexTs.makeBlobServiceClient config) in
  let client := getBlockBlobClient (svc_getContainerClient svc (containerName config))
                  (getFileName (defaultPath config) photo) in
  let c := {| remote := world_of {["media" := private_container]} []; file := photo |} in
  let written := url (file (snd (IndexTs.Methods.upload (@IndexTs.init test_library raw) c))) in
  raw_containerAccessType raw = JsString "private"
  /\ written = "https://acc.blob.core.windows.net/media/assets/abc.png"
  /\ written = @client_url test_library client
  /\ (forall o, written <> @generateSasUrl test_library client o)
  /\ url (file (snd (IndexTs.Methods.uploadStream (@IndexTs.init test_library raw) c))) = written.
Proof.
  cbv zeta. split; [reflexivity|]. split; [vm_compute; reflexivity|].
  split; [vm_compute; reflexivity|]. split; [|reflexivity].
  intros o Hsame.
  destruct (test_library_sas_extends_url
              (getBlockBlobClient
                 (svc_getContainerClient
                    (fst (IndexTs.makeBlobServiceClient
                            (IndexTs.init_config (with_access (JsString "private") raw_example))))
                    (containerName (IndexTs.init_config (with_access (JsString "private") raw_example))))
                 (getFileName
                    (defaultPath (IndexTs.init_config (with_access (JsString "private") raw_example)))
                    photo)) o) as (q & Hq & Hgen).
  rewrite Hgen in Hsame.
  change (url (file (snd (IndexTs.Methods.upload
                            (@IndexTs.init test_library (with_access (JsString "private") raw_example))
                            {| remote := world_of {["media" := private_container]} []; file := photo |}))))
    with (url (file (snd (@IndexTs.handleUpload test_library
                            (IndexTs.init_config (with_access (JsString "private") raw_example))
                            (fst (IndexTs.makeBlobServiceClient
                                    (IndexTs.init_config (with_access (JsString "private") raw_example))))
                            {| remote := world_of {["media" := private_container]} []; file := photo |}))))
    in Hsame.
  rewrite IndexTs_handleUpload_run in Hsame. cbn [snd file url with_url] in Hsame.
  change (truthy (JsString (cdnBaseURL
            (IndexTs.init_config (with_access (JsString "private") raw_example)))))
    with false in Hsame.
  cbv iota in Hsame.
  rewrite <- (string_app_nil_r (client_url _)) in Hsame at 1.
  apply String.app_inj in Hsame. congruence.
Qed.

(** X17 — the CDN rule where it does what it is meant to: when the client's URL
    starts with the service base URL and the CDN base URL is not empty and
    holds no dollar sign, the written URL is the client's URL, signed or
    plain, with the CDN base URL in the place of the service base URL. *)
Lemma upload_cdn_replaces_service_url `{ClientLibrary} (config : Config) (c : Call) :
  url_under_service -> sas_extends_url ->
  cdnBaseURL config <> "" -> has_char "$" (cdnBaseURL config) = false ->
  let svc := fst (Part001.makeBlobServiceClient config) in
  let client := getBlockBlobClient (Part001.getContainerClient svc config)
                  (getFileName (defaultPath config) (file c)) in
  exists rest q,
    client_url client = serviceBaseURL config ++ rest
    /\ (if is_string (containerAccessType config) "private"
        then generateSasUrl client
               {| permissions := permissions_read_only;
                  expiresOn := UTC (remote c) 32503680000000 |} = client_url client ++ q
        else q = "")
    /\ url (file (snd (Part001.handleUpload config svc c))) = cdnBaseURL config ++ rest ++ q
    /\ url (file (snd (IndexTs.handleUpload config (fst (IndexTs.makeBlobServiceClient config)) c)))
       = cdnBaseURL config ++ rest.
Proof.
  intros Hurl Hsas Hcdn Hdollar svc client.
  destruct (Hurl client) as [rest Hrest]. change (bc_service_url client) with (serviceBaseURL config) in Hrest.
  apply truthy_string in Hcdn.
  rewrite Part001_handleUpload_run, IndexTs_handleUpload_run. cbn [snd fst file url with_url].
  rewrite Hcdn.
  change (getBlockBlobClient
            (svc_getContainerClient (IndexTs.makeBlobServiceClient config).1 (containerName config))
            (getFileName (defaultPath config) (file c))) with client.
  fold client.
  destruct (is_string (containerAccessType config) "private").
  - destruct (Hsas client {| permissions := permissions_read_only;
                             expiresOn := UTC (remote c) 32503680000000 |}) as (q & _ & Hq).
    exists rest, q. split; [exact Hrest|]. split; [exact Hq|].
    change (DayFromYear 3000 * msPerDay)%Z with 32503680000000%Z.
    rewrite Hq, Hrest, string_app_assoc, !replace_prefix_plain by assumption.
    split; reflexivity.
  - exists rest, "". split; [exact Hrest|]. split; [reflexivity|].
    rewrite Hrest, !replace_prefix_plain, string_app_nil_r by assumption.
    split; reflexivity.
Qed.

(** C6 — a CDN base URL with [$$] in it: [replace] reads that as one dollar
    sign, so the URL written by upload does not start with the configured
    CDN base URL, in either file and signed or not. *)
Theorem upload_cdn_dollar_pattern :
  let raw := with_cdn (JsString "https://cdn.example.com/a$$b") raw_example in
  let c := {| remote := world_of {["media" := private_container]} []; file := photo |} in
  cdnBaseURL (Part001.init_config raw) = "https://cdn.example.com/a$$b"
  /\ url (file (snd (Part001.Methods.upload (@Part001.init test_library raw) c)))
     = "https://cdn.example.com/a$b/media/assets/abc.png"
  /\ strip_prefix "https://cdn.example.com/a$$b"
       (url (file (snd (Part001.Methods.upload (@Part001.init test_library raw) c)))) = None
  /\ url (file (snd (Part001.Methods.upload
                       (@Part001.init test_library (with_access (JsString "private") raw)) c)))
     = "https://cdn.example.com/a$b/media/assets/abc.png?sp=r&se=3000-01-01&sig=key"
  /\ url (file (snd (IndexTs.Methods.upload (@IndexTs.init test_library raw) c)))
     = "https://cdn.example.com/a$b/media/assets/abc.png".
Proof.
  cbv zeta. split; [reflexivity|]. repeat split; vm_compute; reflexivity.
Qed.

Lemma uploadStream_request_rejected (bc : BlobClient) (content : string) (bufferSize maxBuffers : Z)
    (options : UploadStreamOptions) (w : World) (e : JsError) :
  fst (uploadStream_request bc content bufferSize maxBuffers options w) = Throw e ->
  containers (snd (uploadStream_request bc content bufferSize maxBuffers options w)) = containers w.
Proof.
  unfold uploadStream_request, request.
  destruct (faults w) as [|[code|] rest]; simpl;
    destruct (containers w !! cc_name (bc_container bc)); simpl; intros; congruence.
Qed.

(** C10 — [handleUpload] assigns [file.url] before it awaits the write: when
    the write is rejected with an error, the call is rejected with that
    error, nothing was stored, and the descriptor already carries the new
    URL, the one a successful upload leaves there; its other fields are
    untouched. This holds in both files. *)
Theorem upload_rejected_url_already_set `{ClientLibrary}
    (config : Config) (svc : BlobServiceClient) (c : Call) (e : JsError) :
  let client := getBlockBlobClient (svc_getContainerClient svc (containerName config))
                  (getFileName (defaultPath config) (file c)) in
  let write := uploadStream_request client (stream (file c)) (bufferSize uploadOptions)
                 (maxBuffers uploadOptions) {| blobHTTPHeaders_blobContentType := mime (file c) |} in
  let cdn_rule u := if truthy (JsString (cdnBaseURL config))
                    then replace u (serviceBaseURL config) (cdnBaseURL config) else u in
  let new_url := cdn_rule (if is_string (containerAccessType config) "private"
                           then generateSasUrl client
                                  {| permissions := permissions_read_only;
                                     expiresOn := UTC (remote c) 32503680000000 |}
                           else client_url client) in
  fst (write (remote c)) = Throw e ->
  (fst (Part001.handleUpload config svc c) = Throw e
   /\ file (snd (Part001.handleUpload config svc c)) = with_url (file c) new_url
   /\ containers (remote (snd (Part001.handleUpload config svc c))) = containers (remote c))
  /\ (fst (IndexTs.handleUpload config svc c) = Throw e
      /\ file (snd (IndexTs.handleUpload config svc c)) = with_url (file c) (cdn_rule (client_url client))
      /\ containers (remote (snd (IndexTs.handleUpload config svc c))) = containers (remote c))
  /\ (forall w, fst (write w) = Ok tt ->
        file (snd (Part001.handleUpload config svc {| remote := w; file := file c |}))
        = with_url (file c)
            (cdn_rule (if is_string (containerAccessType config) "private"
                       then generateSasUrl client
                              {| permissions := permissions_read_only;
                                 expiresOn := UTC w 32503680000000 |}
                       else client_url client))
        /\ file (snd (IndexTs.handleUpload config svc {| remote := w; file := file c |}))
           = with_url (file c) (cdn_rule (client_url client))).
Proof.
  intros client write cdn_rule new_url Hfail.
  rewrite Part001_handleUpload_run, IndexTs_handleUpload_run. cbn [fst snd remote file].
  split; [|split].
  - split; [exact Hfail|]. split; [reflexivity|].
    now apply uploadStream_request_rejected with (e := e).
  - split; [exact Hfail|]. split; [reflexivity|].
    now apply uploadStream_request_rejected with (e := e).
  - intros w _. rewrite Part001_handleUpload_run, IndexTs_handleUpload_run.
    split; reflexivity.
Qed.

Lemma upload_rejected_url_already_set_witness :
  let config := Part001.init_config (with_access (JsString "private") raw_example) in
  let svc := fst (Part001.makeBlobServiceClient config) in
  let c := {| remote := world_of {["media" := private_container]} [Some "ServerBusy"]; file := photo |} in
  fst (@Part001.handleUpload test_library config svc c) = Throw (RestError "ServerBusy")
  /\ url (file (snd (@Part001.handleUpload test_library config svc c)))
     = "https://acc.blob.core.windows.net/media/assets/abc.png?sp=r&se=3000-01-01&sig=key"
  /\ url photo = "".
Proof.
  intros config svc c.
  destruct (@upload_rejected_url_already_set test_library config svc c (RestError "ServerBusy") eq_refl)
    as [(Hthrow & Hfile & _) _].
  split; [exact Hthrow|]. split; [|reflexivity].
  rewrite Hfile. reflexivity.
Defined.

(** ** Requests that are served *)

Lemma request_served {A} (serve : gmap string Container -> Result A * gmap string Container)
    (w : World) (n : nat) :
  served (S n) (faults w) = true ->
  request serve w =
  (fst (serve (containers w)), set_account w (snd (serve (containers w))) (tail (faults w)))
  /\ served n (tail (faults w)) = true.
Proof.
  unfold request. destruct (faults w) as [|[code|] rest]; simpl; intros Hs.
  - split; [now destruct (serve (containers w)) | now destruct n].
  - discriminate.
  - split; [now destruct (serve (containers w)) | exact Hs].
Qed.

(** ** The visibility query *)

(** C2 — on a container that exists, with the two requests served,
    [isPrivate] answers true exactly when the container has no public access
    level, so false for both ['blob'] and ['container']; the account is left
    as it was. *)
Theorem isPrivate_existing_container (config : Config) (svc : BlobServiceClient) (w : World)
    (ct : Container) (fuel : nat) :
  containers w !! containerName config = Some ct ->
  served 2 (faults w) = true ->
  IndexTs.isPrivate (S fuel) config svc w
  = Some (Ok (match publicAccess ct with None => true | Some _ => false end),
          set_account w (containers w) (tail (tail (faults w))))
  /\ (publicAccess ct = None <->
      fst <$> IndexTs.isPrivate (S fuel) config svc w = Some (Ok true))
  /\ (publicAccess ct = Some access_blob \/ publicAccess ct = Some access_container ->
      fst <$> IndexTs.isPrivate (S fuel) config svc w = Some (Ok false)).
Proof.
  intros Hct Hserved.
  assert (Hrun : IndexTs.isPrivate (S fuel) config svc w
                 = Some (Ok (match publicAccess ct with None => true | Some _ => false end),
                         set_account w (containers w) (tail (tail (faults w))))).
  { cbn [IndexTs.isPrivate]. unfold container_exists, getProperties, bind, ret.
    destruct (request_served (A := bool)
                (fun cs => (Ok (bool_decide (is_Some (cs !! cc_name
                   (svc_getContainerClient svc (containerName config))))), cs)) w 1 Hserved)
      as [-> Hserved'].
    cbn [fst snd svc_getContainerClient cc_name]. rewrite Hct.
    rewrite bool_decide_true by eauto.
    match goal with |- context [request ?f ?w1] =>
      destruct (request_served f w1 0 Hserved') as [-> _] end.
    cbn [fst snd set_account containers faults]. rewrite Hct. cbn [fst snd blobPublicAccess].
    destruct (publicAccess ct); reflexivity. }
  split; [exact Hrun|]. rewrite Hrun. cbn.
  split; [split|].
  - now intros ->.
  - destruct (publicAccess ct); [discriminate | reflexivity].
  - intros [-> | ->]; reflexivity.
Qed.

Lemma isPrivate_existing_container_witness :
  let config := IndexTs.init_config raw_example in
  let svc := fst (IndexTs.makeBlobServiceClient config) in
  fst <$> IndexTs.isPrivate 1 config svc (world_of {["media" := private_container]} [])
  = Some (Ok true)
  /\ fst <$> IndexTs.isPrivate 1 config svc
               (world_of {["media" := {| publicAccess := Some access_blob; blobs := ∅ |}]} [None; None])
     = Some (Ok false).
Proof.
  intros config svc. split.
  - refine (proj1 (proj1 (proj2 (isPrivate_existing_container config svc
              (world_of {["media" := private_container]} []) private_container 0 _ eq_refl))) eq_refl).
    vm_compute. reflexivity.
  - refine (proj2 (proj2 (isPrivate_existing_container config svc
              (world_of {["media" := {| publicAccess := Some access_blob; blobs := ∅ |}]} [None; None])
              {| publicAccess := Some access_blob; blobs := ∅ |} 0 _ eq_refl)) (or_introl eq_refl)).
    vm_compute. reflexivity.
Defined.

Lemma contains_middle (a x b : string) : contains x (a ++ x ++ b).
Proof. now exists a, b. Qed.

(** C3 — the container does not exist and auto-creation is off: [isPrivate]
    is rejected with an [Error] whose message names the configured container
    and the configured account, and the account is left as it was. *)
Theorem isPrivate_missing_container_rejected (config : Config) (svc : BlobServiceClient)
    (w : World) (fuel : nat) :
  containers w !! containerName config = None ->
  truthy (createContainerIfNotExists config) = false ->
  served 1 (faults w) = true ->
  IndexTs.isPrivate (S fuel) config svc w
  = Some (Throw (Error ("upload provider error : container " ++ containerName config
                        ++ " does not exist. Either use createContainerIfNotExists or create the container manually in "
                        ++ account config ++ " storage account.")),
          set_account w (containers w) (tail (faults w)))
  /\ contains (containerName config) (IndexTs.container_missing_message config)
  /\ contains (account config) (IndexTs.container_missing_message config).
Proof.
  intros Hmissing Hflag Hserved. split; [|split].
  - cbn [IndexTs.isPrivate]. unfold container_exists.
    match goal with |- context [request ?f w] =>
      destruct (request_served f w 0 Hserved) as [-> _] end.
    cbn [fst snd svc_getContainerClient cc_name]. rewrite Hmissing.
    rewrite bool_decide_false by (intros [? ?]; discriminate).
    now rewrite Hflag.
  - apply contains_middle.
  - unfold IndexTs.container_missing_message.
    rewrite <- !string_app_assoc. rewrite string_app_assoc. apply contains_middle.
Qed.

Lemma isPrivate_missing_container_rejected_witness :
  let config := IndexTs.init_config (with_autocreate (JsBool false) raw_example) in
  let svc := fst (IndexTs.makeBlobServiceClient config) in
  fst <$> IndexTs.isPrivate 1 config svc (world_of ∅ [])
  = Some (Throw (Error "upload provider error : container media does not exist. Either use createContainerIfNotExists or create the container manually in acc storage account.")).
Proof.
  intros config svc.
  rewrite (proj1 (isPrivate_missing_container_rejected config svc (world_of ∅ []) 0
                    (lookup_empty _) eq_refl eq_refl)).
  reflexivity.
Defined.

Lemma createIfNotExists_ok (cc : ContainerClient) (access : JsValue) (w w' : World) (b : bool) :
  createIfNotExists cc access w = (Ok b, w') -> is_Some (containers w' !! cc_name cc).
Proof.
  unfold createIfNotExists, request.
  destruct (faults w) as [|[code|] rest]; try discriminate;
    (destruct (access_option access); [|discriminate]);
    destruct (containers w !! cc_name cc) eqn:E; intros [= <- <-]; cbn [containers set_account];
    rewrite ?lookup_insert_eq, ?E; eauto.
Qed.

Lemma container_exists_false (cc : ContainerClient) (w w' : World) :
  container_exists cc w = (Ok false, w') -> containers w !! cc_name cc = None.
Proof.
  unfold container_exists, request.
  destruct (faults w) as [|[code|] rest]; try discriminate;
    destruct (containers w !! cc_name cc) eqn:E; try reflexivity;
    rewrite bool_decide_true by eauto; discriminate.
Qed.

(** X13 — one retry is all [isPrivate] ever makes when nobody else changes
    the account in between: whatever the requests come to, two calls are enough
    for an outcome, and more fuel does not change it. *)
Lemma isPrivate_one_retry (config : Config) (svc : BlobServiceClient) (w : World) (fuel : nat) :
  exists outcome,
    IndexTs.isPrivate 2 config svc w = Some outcome
    /\ IndexTs.isPrivate (S (S fuel)) config svc w = Some outcome.
Proof.
  cbn [IndexTs.isPrivate].
  destruct (container_exists (svc_getContainerClient svc (containerName config)) w)
    as [[[|]|e] w1] eqn:E1; eauto.
  destruct (truthy (createContainerIfNotExists config)); eauto.
  destruct (createIfNotExists (svc_getContainerClient svc (containerName config)) JsUndefined w1)
    as [[b|e] w2] eqn:E2; eauto.
  apply createIfNotExists_ok in E2.
  destruct (container_exists (svc_getContainerClient svc (containerName config)) w2)
    as [[[|]|e] w3] eqn:E3; eauto.
  apply container_exists_false in E3. rewrite E3 in E2. now destruct E2.
Qed.

(** X14 — with auto-creation on and the requests served, [isPrivate] on a
    missing container creates it with no public access, asks again once and answers
    true; one call without the retry is not enough. *)
Lemma isPrivate_creates_container (config : Config) (svc : BlobServiceClient) (w : World) (fuel : nat) :
  containers w !! containerName config = None ->
  truthy (createContainerIfNotExists config) = true ->
  served 4 (faults w) = true ->
  IndexTs.isPrivate (S (S fuel)) config svc w
  = Some (Ok true,
          set_account w (<[containerName config := private_container]> (containers w))
            (tail (tail (tail (tail (faults w))))))
  /\ IndexTs.isPrivate 1 config svc w = None.
Proof.
  intros Hmissing Hflag Hserved.
  cbn [IndexTs.isPrivate]. unfold container_exists, createIfNotExists, getProperties, bind, ret.
  match goal with |- context [request ?f w] =>
    destruct (request_served f w 3 Hserved) as [-> Hserved3] end.
  cbn [fst snd svc_getContainerClient cc_name]. rewrite Hmissing.
  rewrite bool_decide_false by (intros [? ?]; discriminate).
  rewrite Hflag.
  match goal with |- context [request ?f ?w1] =>
    destruct (request_served f w1 2 Hserved3) as [-> Hserved2] end.
  cbn [fst snd set_account containers faults access_option]. rewrite Hmissing.
  cbn [fst snd].
  match goal with |- context [request ?f ?w2] =>
    destruct (request_served f w2 1 Hserved2) as [-> Hserved1] end.
  cbn [fst snd set_account containers faults]. rewrite lookup_insert_eq.
  rewrite bool_decide_true by eauto.
  match goal with |- context [request ?f ?w3] =>
    destruct (request_served f w3 0 Hserved1) as [-> _] end.
  cbn [fst snd set_account containers faults clock zone]. rewrite lookup_insert_eq.
  split; reflexivity.
Qed.

(** C4 — auto-creation is on, the container is missing and the access type
    is set to ['blob']: [init] of [index.ts] drops the access type,
    [isPrivate] creates the container with no public access and, after its
    one retry, answers true. The container is not the ['blob'] container the
    configuration asks for, and the answer is not the one for it. *)
Theorem isPrivate_ignores_access_type :
  let raw := with_access (JsString "blob") raw_example in
  raw_containerAccessType raw = JsString "blob"
  /\ truthy (createContainerIfNotExists (IndexTs.init_config raw)) = true
  /\ containerAccessType (IndexTs.init_config raw) = JsUndefined
  /\ IndexTs.Methods.isPrivate (@IndexTs.init test_library raw) 2 (world_of ∅ [])
     = Some (Ok true, world_of {["media" := {| publicAccess := None; blobs := ∅ |}]} [])
  /\ IndexTs.Methods.isPrivate (@IndexTs.init test_library raw) 1 (world_of ∅ []) = None
  /\ match IndexTs.init_provisioning raw with
     | Some task => containers (snd (task (world_of ∅ []))) !! "media"
                    = Some {| publicAccess := None; blobs := ∅ |}
     | None => False
     end.
Proof.
  cbv zeta. repeat split; vm_compute; reflexivity.
Qed.

(** ** Delete *)

Lemma handleDelete_run `{ClientLibrary} (config : Config) (svc : BlobServiceClient) (c : Call)
    (ct : Container) :
  let key := getFileName (defaultPath config) (file c) in
  let client := getBlobClient (svc_getContainerClient svc (containerName config)) key in
  containers (remote c) !! containerName config = Some ct ->
  served 1 (faults (remote c)) = true ->
  handleDelete config svc c
  = (Ok tt,
     {| remote :=
          set_account (remote c)
            (match blobs ct !! key with
             | None => containers (remote c)
             | Some _ => <[containerName config :=
                             {| publicAccess := publicAccess ct; blobs := delete key (blobs ct) |}]>
                           (containers (remote c))
             end)
            (tail (faults (remote c)));
        file := with_url (file c) (client_url client) |}).
Proof.
  intros key client Hct Hserved.
  unfold handleDelete, bind, get_file, liftW, set_url, deleteIfExists.
  match goal with |- context [request ?f ?w] =>
    destruct (request_served f w 0 Hserved) as [-> _] end.
  cbn [fst snd getBlobClient svc_getContainerClient bc_container bc_name cc_name].
  rewrite Hct. fold key.
  destruct (blobs ct !! key); reflexivity.
Qed.

(** C5 — delete on a container that exists, the request served: the call
    succeeds whether or not the object is there; afterwards the container
    holds no object at the derived key and every other object it held, and
    the other containers are as before; when the key was absent nothing
    changes at all, and a second delete succeeds and changes nothing. The
    descriptor's URL becomes the client's plain URL: no signature and no CDN
    rule, whatever the access type. *)
Theorem delete_removes_object `{ClientLibrary} (config : Config) (svc : BlobServiceClient)
    (c : Call) (ct : Container) :
  let key := getFileName (defaultPath config) (file c) in
  let client := getBlobClient (svc_getContainerClient svc (containerName config)) key in
  let c' := snd (handleDelete config svc c) in
  containers (remote c) !! containerName config = Some ct ->
  served 1 (faults (remote c)) = true ->
  fst (handleDelete config svc c) = Ok tt
  /\ file c' = with_url (file c) (client_url client)
  /\ (exists ct', containers (remote c') !! containerName config = Some ct'
                  /\ publicAccess ct' = publicAccess ct
                  /\ blobs ct' !! key = None
                  /\ forall other, other <> key -> blobs ct' !! other = blobs ct !! other)
  /\ (forall name, name <> containerName config ->
                   containers (remote c') !! name = containers (remote c) !! name)
  /\ (blobs ct !! key = None -> containers (remote c') = containers (remote c))
  /\ (served 2 (faults (remote c)) = true ->
      fst (handleDelete config svc c') = Ok tt
      /\ containers (remote (snd (handleDelete config svc c'))) = containers (remote c')
      /\ file (snd (handleDelete config svc c')) = file c').
Proof.
  intros key client c' Hct Hserved.
  assert (Hrun := handleDelete_run config svc c ct Hct Hserved). cbv zeta in Hrun. fold key client in Hrun.
  assert (Hct' : exists ct', containers (remote c') !! containerName config = Some ct'
                  /\ publicAccess ct' = publicAccess ct
                  /\ blobs ct' !! key = None
                  /\ forall other, other <> key -> blobs ct' !! other = blobs ct !! other).
  { subst c'. rewrite Hrun. cbn [snd remote containers set_account].
    destruct (blobs ct !! key) eqn:Hkey.
    - eexists. rewrite lookup_insert_eq. split; [reflexivity|]. cbn [publicAccess blobs].
      split; [reflexivity|]. split; [apply lookup_delete_eq|].
      intros other Hother. now apply lookup_delete_ne.
    - exists ct. auto. }
  split; [now rewrite Hrun|]. split; [subst c'; now rewrite Hrun|]. split; [exact Hct'|].
  split; [|split].
  - intros name Hname. subst c'. rewrite Hrun. cbn [snd remote containers set_account].
    destruct (blobs ct !! key); [|reflexivity]. now apply lookup_insert_ne.
  - intros Hkey. subst c'. rewrite Hrun. cbn [snd remote containers set_account]. now rewrite Hkey.
  - intros Hserved2. destruct Hct' as (ct' & Hlookup & _ & Hgone & _).
    assert (Hserved' : served 1 (faults (remote c')) = true).
    { subst c'. rewrite Hrun. cbn [snd remote faults set_account].
      destruct (faults (remote c)) as [|[code|] rest]; [reflexivity | discriminate | exact Hserved2]. }
    assert (Hfile : file c' = with_url (file c) (client_url client)).
    { subst c'. now rewrite Hrun. }
    assert (Hrun' := handleDelete_run config svc c' ct' Hlookup Hserved'). cbv zeta in Hrun'.
    assert (Hkey' : getFileName (defaultPath config) (file c') = key).
    { rewrite Hfile. reflexivity. }
    rewrite Hkey', Hgone in Hrun'. rewrite Hrun'. cbn [fst snd remote containers set_account file].
    split; [reflexivity|]. split; [reflexivity|].
    rewrite Hfile. reflexivity.
Qed.

Lemma delete_removes_object_witness :
  let config := Part001.init_config (with_access (JsString "private") raw_example) in
  let svc := fst (Part001.makeBlobServiceClient config) in
  let stored := {| publicAccess := None;
                   blobs := {["assets/abc.png" := {| blob_content := "PNG-bytes"; blobContentType := "image/png" |}]} |} in
  let c := {| remote := world_of {["media" := stored]} []; file := photo |} in
  fst (@handleDelete test_library config svc c) = Ok tt
  /\ url (file (snd (@handleDelete test_library config svc c)))
     = "https://acc.blob.core.windows.net/media/assets/abc.png"
  /\ fst (@handleDelete test_library config svc (snd (@handleDelete test_library config svc c))) = Ok tt.
Proof.
  intros config svc stored c.
  assert (Hct : containers (remote c) !! containerName config = Some stored)
    by (vm_compute; reflexivity).
  destruct (@delete_removes_object test_library config svc c stored Hct eq_refl)
    as (Hok & Hfile & _ & _ & _ & Htwice).
  split; [exact Hok|]. split; [now rewrite Hfile|].
  exact (proj1 (Htwice eq_refl)).
Defined.

(** ** The signed URL on request *)




(** The CDN rule on the example library, for a signed URL and a CDN base
    URL given with blanks around it. *)
Example upload_cdn_example :
  let config := Part001.init_config
                  (with_cdn (JsString " https://cdn.example.com ")
                     (with_access (JsString "private") raw_example)) in
  let c := {| remote := world_of {["media" := private_container]} []; file := photo |} in
  url (file (snd (@Part001.handleUpload test_library config
                    (fst (Part001.makeBlobServiceClient config)) c)))
  = "https://cdn.example.com/media/assets/abc.png?sp=r&se=3000-01-01&sig=key".
Proof.
  intros config c.
  destruct (@upload_cdn_replaces_service_url test_library config c
              test_library_url_under_service test_library_sas_extends_url
              ltac:(discriminate) eq_refl) as (rest & q & Hrest & Hq & Hwritten & _).
  rewrite Hwritten.
  apply (String.app_inj (serviceBaseURL config)) in Hrest. subst rest.
  cbn [is_string containerAccessType config Part001.init_config with_cdn with_access raw_example
       raw_containerAccessType String.eqb Ascii.eqb Bool.eqb] in Hq.
  apply (String.app_inj _) in Hq. subst q. reflexivity.
Defined.

(** * More of the provider *)

(** ** More on strings *)

Lemma string_app_length (a b : string) :
  String.length (a ++ b) = String.length a + String.length b.
Proof. induction a as [|x a IH]; simpl; [reflexivity | now rewrite IH]. Qed.

Lemma string_app_inv_tail (a b e : string) : a ++ e = b ++ e -> a = b.
Proof.
  revert b. induction a as [|x a IH]; intros [|y b] H; simpl in H.
  - reflexivity.
  - apply (f_equal String.length) in H. simpl in H. rewrite string_app_length in H. lia.
  - apply (f_equal String.length) in H. simpl in H. rewrite string_app_length in H. lia.
  - injection H as -> H. f_equal. now apply IH.
Qed.

Lemma last_char_app (a b : string) : b <> "" -> last_char (a ++ b) = last_char b.
Proof.
  intros Hb. induction a as [|x a IH]; simpl; [reflexivity|].
  destruct (a ++ b) as [|y t] eqn:E; [|exact IH].
  destruct a; simpl in E; [contradiction | discriminate].
Qed.

Lemma trim_end_fixed (s : string) :
  (forall c, last_char s = Some c -> is_white_space c = false) -> trim_end s = s.
Proof.
  induction s as [|x s IH]; [reflexivity|]. intros Hlast.
  destruct s as [|y t].
  - simpl. now rewrite (Hlast x eq_refl).
  - change (trim_end (String x (String y t))) with
      (match trim_end (String y t) with
       | "" => if is_white_space x then "" else String x ""
       | r => String x r
       end).
    rewrite IH; [reflexivity|]. intros c Hc. apply Hlast. exact Hc.
Qed.

Lemma trim_fixed (s : string) :
  (forall c, head_char s = Some c \/ last_char s = Some c -> is_white_space c = false) ->
  trim s = s.
Proof.
  intros Hs. unfold trim. rewrite trim_start_fixed by (intros c Hc; apply Hs; now left).
  apply trim_end_fixed. intros c Hc. apply Hs. now right.
Qed.

Lemma strip_prefix_sound (p s r : string) : strip_prefix p s = Some r -> s = p ++ r.
Proof.
  revert s. induction p as [|a p IH]; intros s; simpl.
  - now intros [= ->].
  - destruct s as [|b s]; [discriminate|].
    destruct (Ascii.eqb_spec a b) as [->|]; [|discriminate].
    intros H. now rewrite (IH s H).
Qed.

Lemma split_at_first_sound (pat s before after : string) :
  split_at_first pat s = Some (before, after) -> s = before ++ pat ++ after.
Proof.
  revert before. induction s as [|c s IH]; intros before; simpl.
  - destruct (strip_prefix pat "") as [rest|] eqn:E; [|discriminate].
    intros [= <- <-]. apply (strip_prefix_sound _ _ _ E).
  - destruct (strip_prefix pat (String c s)) as [rest|] eqn:E.
    + intros [= <- <-]. apply (strip_prefix_sound _ _ _ E).
    + destruct (split_at_first pat s) as [[b a]|]; [|discriminate].
      intros [= <- <-]. simpl. now rewrite <- (IH b eq_refl).
Qed.

Lemma split_at_first_complete (pat s : string) :
  contains pat s -> split_at_first pat s <> None.
Proof.
  intros (a & b & ->). induction a as [|c a IH]; simpl.
  - destruct (pat ++ b) as [|x t] eqn:E; simpl; rewrite <- E, strip_prefix_app; discriminate.
  - destruct (strip_prefix pat (String c (a ++ pat ++ b))); [discriminate|].
    destruct (split_at_first pat (a ++ pat ++ b)) as [[? ?]|]; [discriminate | contradiction].
Qed.

(** [replace] changes a text only where the pattern occurs in it. *)
Lemma replace_without_match (s pat repl : string) :
  ~ contains pat s -> replace s pat repl = s.
Proof.
  intros Hnone. unfold replace.
  destruct (split_at_first pat s) as [[before after]|] eqn:E; [|reflexivity].
  destruct Hnone. exists before, after. now apply split_at_first_sound.
Qed.

Lemma trim_all_white (s : string) : all_white_space s = true -> trim s = "".
Proof. intros Hs. unfold trim. now rewrite trim_start_all_white. Qed.

(** ** [trimParam] and [getFileName] *)

(** X1 — [trimParam] returns a string stripped of the whitespace around it
    and nothing more: a text that neither starts nor ends with whitespace
    comes back as it is from any whitespace put around it. Applying
    [trimParam] to its own result changes nothing, for any value. *)
Theorem trimParam_strips_outer_white (l p r : string) :
  all_white_space l = true -> all_white_space r = true ->
  (forall c, head_char p = Some c \/ last_char p = Some c -> is_white_space c = false) ->
  trimParam (JsString (l ++ p ++ r)) = p
  /\ forall v, trimParam (JsString (trimParam v)) = trimParam v.
Proof.
  intros Hl Hr Hp. split.
  - cbn [trimParam]. rewrite trim_white by assumption. now apply trim_fixed.
  - intros v. apply trimParam_trimmed.
Qed.

Lemma trimParam_strips_outer_white_witness :
  trimParam (JsString "  my assets
 ") = "my assets".
Proof.
  refine (proj1 (trimParam_strips_outer_white "  " "my assets" "
 " eq_refl eq_refl _)).
  intros c [[= <-] | [= <-]]; reflexivity.
Defined.

(** X2 — two files with the same extension get the same key exactly when
    their hashes are the same. *)
Theorem getFileName_same_key_same_hash (p : string) (f g : StrapiFile) :
  ext f = ext g ->
  (getFileName p f = getFileName p g <-> hash f = hash g).
Proof.
  intros Hext. unfold getFileName. split.
  - intros Hkey. apply String.app_inj in Hkey. simpl in Hkey. injection Hkey as Hkey.
    rewrite Hext in Hkey. now apply string_app_inv_tail in Hkey.
  - intros ->. now rewrite Hext.
Qed.

Lemma getFileName_same_key_same_hash_witness :
  getFileName "assets" photo
  <> getFileName "assets" {| stream := ""; hash := "abd"; url := ""; ext := ".png"; mime := ""; path := "" |}.
Proof.
  intros Hkey.
  apply (proj1 (getFileName_same_key_same_hash "assets" photo
                  {| stream := ""; hash := "abd"; url := ""; ext := ".png"; mime := ""; path := "" |}
                  eq_refl)) in Hkey.
  discriminate Hkey.
Defined.

(** X3 — a default path that is absent, not a string, or blank gives keys
    that start with the slash: [init] turns it into the empty string and
    [getFileName] joins the parts all the same. *)
Theorem getFileName_without_path (raw : RawConfig) (f : StrapiFile) :
  (forall s, raw_defaultPath raw = JsString s -> all_white_space s = true) ->
  getFileName (defaultPath (Part001.init_config raw)) f = "/" ++ hash f ++ ext f
  /\ getFileName (defaultPath (IndexTs.init_config raw)) f = "/" ++ hash f ++ ext f.
Proof.
  intros Hblank.
  assert (Hpath : trimParam (raw_defaultPath raw) = "").
  { destruct (raw_defaultPath raw) as [| | | | |s]; try reflexivity.
    apply trim_all_white. now apply Hblank. }
  unfold getFileName. cbn [Part001.init_config IndexTs.init_config defaultPath].
  rewrite Hpath. split; reflexivity.
Qed.

Lemma getFileName_without_path_witness :
  getFileName (defaultPath (Part001.init_config
    {| raw_account := JsString "acc"; raw_accountKey := JsString "key";
       raw_serviceBaseURL := JsUndefined; raw_containerName := JsString "media";
       raw_defaultPath := JsString "   "; raw_cdnBaseURL := JsUndefined;
       raw_createContainerIfNotExists := JsUndefined; raw_containerAccessType := JsUndefined |})) photo
  = "/abc.png".
Proof.
  refine (proj1 (getFileName_without_path _ photo _)).
  intros s [= <-]. reflexivity.
Defined.

(** ** [init] *)

Lemma default_endpoint_trimmed (a : string) :
  trim ("https://" ++ a ++ ".blob.core.windows.net") = "https://" ++ a ++ ".blob.core.windows.net".
Proof.
  apply trim_fixed. intros c [Hc | Hc].
  - simpl in Hc. revert Hc. now intros [= <-].
  - rewrite !last_char_app in Hc by (try discriminate; destruct a; discriminate).
    simpl in Hc. revert Hc. now intros [= <-].
Qed.

(** X4 — [init] is idempotent: a configuration it produced, handed to it
    again, comes out the same, in both files. *)
Theorem init_config_idempotent (raw : RawConfig) :
  Part001.init_config (to_raw (Part001.init_config raw)) = Part001.init_config raw
  /\ IndexTs.init_config (to_raw (IndexTs.init_config raw)) = IndexTs.init_config raw.
Proof.
  assert (Hurl : forall v a,
            or_else (trim (or_else (trimParam v) ("https://" ++ trimParam a ++ ".blob.core.windows.net")))
                    ("https://" ++ trim (trimParam a) ++ ".blob.core.windows.net")
            = or_else (trimParam v) ("https://" ++ trimParam a ++ ".blob.core.windows.net")).
  { intros v a. unfold or_else at 2 3.
    destruct (String.eqb_spec (trimParam v) "") as [E|E].
    - rewrite default_endpoint_trimmed. reflexivity.
    - rewrite trimParam_trimmed. unfold or_else.
      destruct (String.eqb_spec (trimParam v) ""); [contradiction | reflexivity]. }
  unfold Part001.init_config, IndexTs.init_config, to_raw.
  cbn [account accountKey serviceBaseURL containerName defaultPath cdnBaseURL
       createContainerIfNotExists containerAccessType
       raw_account raw_accountKey raw_serviceBaseURL raw_containerName raw_defaultPath
       raw_cdnBaseURL raw_createContainerIfNotExists raw_containerAccessType trimParam].
  rewrite !Hurl, !trimParam_trimmed.
  destruct (raw_createContainerIfNotExists raw); split; reflexivity.
Qed.

(** ** [makeBlobServiceClient] *)

Lemma provisioning_when_flag (config : Config) :
  (is_Some (snd (Part001.makeBlobServiceClient config))
   <-> truthy (createContainerIfNotExists config) = true)
  /\ (is_Some (snd (IndexTs.makeBlobServiceClient config))
      <-> truthy (createContainerIfNotExists config) = true).
Proof.
  unfold Part001.makeBlobServiceClient, IndexTs.makeBlobServiceClient. cbn [snd].
  destruct (truthy (createContainerIfNotExists config)); split; split; eauto;
    try discriminate; intros [task Htask]; discriminate Htask.
Qed.

(** X5 — [init] leaves a container-creation request running exactly when the
    raw [createContainerIfNotExists] option is [undefined] or truthy. For
    instance [null], [false], [0], [NaN] and the empty string switch it off,
    and a non-empty string, ["false"] as well, leaves it on. Both files. *)
Theorem provisioning_iff_flag (raw : RawConfig) :
  (is_Some (Part001.init_provisioning raw) <->
   raw_createContainerIfNotExists raw = JsUndefined
   \/ truthy (raw_createContainerIfNotExists raw) = true)
  /\ (is_Some (IndexTs.init_provisioning raw) <->
      raw_createContainerIfNotExists raw = JsUndefined
      \/ truthy (raw_createContainerIfNotExists raw) = true)
  /\ (forall v, In v [JsNull; JsBool false; JsNumber 0; JsNaN; JsString ""] ->
                Part001.init_provisioning (with_autocreate v raw) = None
                /\ IndexTs.init_provisioning (with_autocreate v raw) = None)
  /\ (forall s, s <> "" ->
                is_Some (Part001.init_provisioning (with_autocreate (JsString s) raw))
                /\ is_Some (IndexTs.init_provisioning (with_autocreate (JsString s) raw))).
Proof.
  unfold Part001.init_provisioning, IndexTs.init_provisioning.
  split; [|split; [|split]].
  - rewrite (proj1 (provisioning_when_flag (Part001.init_config raw))).
    unfold Part001.init_config. cbn [createContainerIfNotExists].
    destruct (raw_createContainerIfNotExists raw); cbn [truthy]; split; auto;
      try discriminate; intros [H|H]; congruence.
  - rewrite (proj2 (provisioning_when_flag (IndexTs.init_config raw))).
    unfold IndexTs.init_config. cbn [createContainerIfNotExists].
    destruct (raw_createContainerIfNotExists raw); cbn [truthy]; split; auto;
      try discriminate; intros [H|H]; congruence.
  - intros v Hv. cbn [In] in Hv.
    repeat (destruct Hv as [<- | Hv]; [split; reflexivity|]). destruct Hv.
  - intros s Hs. apply truthy_string in Hs.
    rewrite (proj1 (provisioning_when_flag _)), (proj2 (provisioning_when_flag _)).
    split; exact Hs.
Qed.

(** X6 — the creation request of [part_001], served on an account without
    the container: the container is created empty with the configured
    level, no public access for ['private'] and for an access type left
    out, and the log line says it was created. The request of [index.ts]
    creates it with no public access whatever the access type. *)
Theorem provisioning_creates_container (config : Config) (w : World)
    (level : option PublicAccessType) :
  truthy (createContainerIfNotExists config) = true ->
  containers w !! containerName config = None ->
  served 1 (faults w) = true ->
  (containerAccessType config = JsString "private" /\ level = None)
  \/ (containerAccessType config = JsUndefined /\ level = None)
  \/ (containerAccessType config = JsString "blob" /\ level = Some access_blob)
  \/ (containerAccessType config = JsString "container" /\ level = Some access_container) ->
  (exists task,
      snd (Part001.makeBlobServiceClient config) = Some task
      /\ task w = (Ok ("container " ++ containerName config ++ " created successfully"),
                   set_account w
                     (<[containerName config := {| publicAccess := level; blobs := ∅ |}]> (containers w))
                     (tail (faults w))))
  /\ (exists task,
         snd (IndexTs.makeBlobServiceClient config) = Some task
         /\ task w = (Ok ("container " ++ containerName config ++ " created successfully"),
                      set_account w
                        (<[containerName config := private_container]> (containers w))
                        (tail (faults w)))).
Proof.
  intros Hflag Hmissing Hserved Hlevel.
  unfold Part001.makeBlobServiceClient, IndexTs.makeBlobServiceClient. rewrite Hflag. cbn [snd].
  split; eexists; (split; [reflexivity|]); unfold bind, createIfNotExists, ret;
    match goal with |- context [request ?f w] =>
      destruct (request_served f w 0 Hserved) as [-> _] end;
    cbn [Part001.getContainerClient svc_getContainerClient cc_name].
  - assert (Haccess : access_option (if is_string (containerAccessType config) "private"
                                      then JsUndefined else containerAccessType config) = Some level).
    { destruct Hlevel as [ [-> ->] | [ [-> ->] | [ [-> ->] | [-> ->] ] ] ]; reflexivity. }
    rewrite Haccess, Hmissing. reflexivity.
  - cbn [access_option]. rewrite Hmissing. reflexivity.
Qed.

Lemma provisioning_creates_container_witness :
  let config := Part001.init_config (with_access (JsString "blob") raw_example) in
  match snd (Part001.makeBlobServiceClient config) with
  | Some task =>
      task (world_of ∅ [])
      = (Ok "container media created successfully",
         world_of {["media" := {| publicAccess := Some access_blob; blobs := ∅ |}]} [])
  | None => False
  end.
Proof.
  intros config.
  destruct (provisioning_creates_container config (world_of ∅ []) (Some access_blob)
              eq_refl (lookup_empty _) eq_refl (or_intror (or_intror (or_introl (conj eq_refl eq_refl)))))
    as [(task & Htask & Hrun) _].
  rewrite Htask, Hrun. vm_compute. reflexivity.
Defined.

(** X7 — the creation request served on an account that has the container:
    nothing is changed, the container keeps the access level and the objects
    it has, whatever level is configured, and the log line says the
    container already existed. Both files. *)
Theorem provisioning_keeps_existing_container (config : Config) (w : World) (ct : Container) :
  truthy (createContainerIfNotExists config) = true ->
  containers w !! containerName config = Some ct ->
  served 1 (faults w) = true ->
  containerAccessType config = JsString "private" \/ containerAccessType config = JsUndefined
  \/ containerAccessType config = JsString "blob" \/ containerAccessType config = JsString "container" ->
  (exists task,
      snd (Part001.makeBlobServiceClient config) = Some task
      /\ task w = (Ok ("container " ++ containerName config ++ " already existed"),
                   set_account w (containers w) (tail (faults w))))
  /\ (exists task,
         snd (IndexTs.makeBlobServiceClient config) = Some task
         /\ task w = (Ok ("container " ++ containerName config ++ " already existed"),
                      set_account w (containers w) (tail (faults w)))).
Proof.
  intros Hflag Hct Hserved Hlevel.
  unfold Part001.makeBlobServiceClient, IndexTs.makeBlobServiceClient. rewrite Hflag. cbn [snd].
  split; eexists; (split; [reflexivity|]); unfold bind, createIfNotExists, ret;
    match goal with |- context [request ?f w] =>
      destruct (request_served f w 0 Hserved) as [-> _] end;
    cbn [Part001.getContainerClient svc_getContainerClient cc_name].
  - destruct Hlevel as [-> | [-> | [-> | ->] ] ]; cbn [is_string access_option String.eqb Ascii.eqb Bool.eqb];
      rewrite Hct; reflexivity.
  - cbn [access_option]. rewrite Hct. reflexivity.
Qed.

Lemma provisioning_keeps_existing_container_witness :
  let config := Part001.init_config (with_access (JsString "blob") raw_example) in
  match snd (Part001.makeBlobServiceClient config) with
  | Some task =>
      task (world_of {["media" := private_container]} [])
      = (Ok "container media already existed", world_of {["media" := private_container]} [])
  | None => False
  end.
Proof.
  intros config.
  assert (Hct : containers (world_of {["media" := private_container]} []) !! containerName config
                = Some private_container) by (vm_compute; reflexivity).
  destruct (provisioning_keeps_existing_container config (world_of {["media" := private_container]} [])
              private_container eq_refl Hct eq_refl (or_intror (or_intror (or_introl eq_refl))))
    as [(task & Htask & Hrun) _].
  rewrite Htask, Hrun. reflexivity.
Defined.

(** ** What upload stores *)

Lemma uploadStream_request_served (bc : BlobClient) (content : string) (bufferSize maxBuffers : Z)
    (options : UploadStreamOptions) (w : World) (ct : Container) :
  containers w !! cc_name (bc_container bc) = Some ct ->
  served 1 (faults w) = true ->
  uploadStream_request bc content bufferSize maxBuffers options w
  = (Ok tt,
     set_account w
       (<[cc_name (bc_container bc) :=
            {| publicAccess := publicAccess ct;
               blobs := <[bc_name bc := {| blob_content := content;
                                           blobContentType := blobHTTPHeaders_blobContentType options |}]>
                          (blobs ct) |}]> (containers w))
       (tail (faults w))).
Proof.
  intros Hct Hserved. unfold uploadStream_request.
  match goal with |- context [request ?f w] =>
    destruct (request_served f w 0 Hserved) as [-> _] end.
  rewrite Hct. reflexivity.
Qed.

(** X8 — an upload into a container that exists, the write served: the call
    succeeds and the container holds, at the derived key, an object with the
    content of the file's stream and the file's MIME type as content type;
    its access level, its other objects and the other containers are as
    before. Both files. *)
Theorem upload_stores_object `{ClientLibrary} (config : Config) (svc : BlobServiceClient)
    (c : Call) (ct : Container) :
  let key := getFileName (defaultPath config) (file c) in
  let stored := {| blob_content := stream (file c); blobContentType := mime (file c) |} in
  let after := <[containerName config :=
                   {| publicAccess := publicAccess ct; blobs := <[key := stored]> (blobs ct) |}]>
                 (containers (remote c)) in
  containers (remote c) !! containerName config = Some ct ->
  served 1 (faults (remote c)) = true ->
  (fst (Part001.handleUpload config svc c) = Ok tt
   /\ containers (remote (snd (Part001.handleUpload config svc c))) = after)
  /\ (fst (IndexTs.handleUpload config svc c) = Ok tt
      /\ containers (remote (snd (IndexTs.handleUpload config svc c))) = after)
  /\ (exists ct', after !! containerName config = Some ct'
                  /\ publicAccess ct' = publicAccess ct
                  /\ blobs ct' !! key = Some stored
                  /\ forall other, other <> key -> blobs ct' !! other = blobs ct !! other)
  /\ (forall name, name <> containerName config -> after !! name = containers (remote c) !! name).
Proof.
  intros key stored after Hct Hserved.
  rewrite Part001_handleUpload_run, IndexTs_handleUpload_run.
  cbn [fst snd remote Part001.getContainerClient].
  rewrite !(uploadStream_request_served
             (getBlockBlobClient (svc_getContainerClient svc (containerName config))
                (getFileName (defaultPath config) (file c)))
             _ _ _ _ (remote c) ct Hct Hserved).
  cbn [fst snd containers set_account getBlockBlobClient svc_getContainerClient
       bc_container bc_name cc_name blobHTTPHeaders_blobContentType].
  split; [split; reflexivity|]. split; [split; reflexivity|]. split.
  - eexists. subst after. rewrite lookup_insert_eq. split; [reflexivity|]. cbn [publicAccess blobs].
    split; [reflexivity|]. split; [apply lookup_insert_eq|].
    intros other Hother. now apply lookup_insert_ne.
  - intros name Hname. subst after. now apply lookup_insert_ne.
Qed.

Lemma upload_stores_object_witness :
  let config := IndexTs.init_config raw_example in
  let svc := fst (IndexTs.makeBlobServiceClient config) in
  let c := {| remote := world_of {["media" := private_container]} []; file := photo |} in
  fst (@IndexTs.handleUpload test_library config svc c) = Ok tt
  /\ containers (remote (snd (@IndexTs.handleUpload test_library config svc c)))
     = {["media" := {| publicAccess := None;
                       blobs := {["assets/abc.png" := {| blob_content := "PNG-bytes";
                                                         blobContentType := "image/png" |}]} |}]}.
Proof.
  intros config svc c.
  assert (Hct : containers (remote c) !! containerName config = Some private_container)
    by (vm_compute; reflexivity).
  destruct (@upload_stores_object test_library config svc c private_container Hct eq_refl)
    as (_ & (Hok & Hafter) & _).
  split; [exact Hok|]. rewrite Hafter. vm_compute. reflexivity.
Defined.

Lemma getFileName_with_url (p : string) (f : StrapiFile) (u : string) :
  getFileName p (with_url f u) = getFileName p f.
Proof. reflexivity. Qed.

(** ** Upload and delete together *)

(** X10 — delete after upload: on a container that exists, with both
    requests served, a delete of the descriptor an upload has just handled
    succeeds and leaves no object at the derived key; the container has the
    objects it had before the upload, less the one at that key. The
    descriptor ends with the client's plain URL. After either file's
    upload. *)
Theorem upload_then_delete `{ClientLibrary} (config : Config) (svc : BlobServiceClient)
    (c : Call) (ct : Container) :
  let key := getFileName (defaultPath config) (file c) in
  let client := getBlobClient (svc_getContainerClient svc (containerName config)) key in
  containers (remote c) !! containerName config = Some ct ->
  served 2 (faults (remote c)) = true ->
  forall c1,
    c1 = snd (Part001.handleUpload config svc c) \/ c1 = snd (IndexTs.handleUpload config svc c) ->
    fst (handleDelete config svc c1) = Ok tt
    /\ containers (remote (snd (handleDelete config svc c1)))
       = <[containerName config :=
             {| publicAccess := publicAccess ct; blobs := delete key (blobs ct) |}]>
           (containers (remote c))
    /\ (exists ct', containers (remote (snd (handleDelete config svc c1))) !! containerName config
                    = Some ct' /\ blobs ct' !! key = None)
    /\ url (file (snd (handleDelete config svc c1))) = client_url client.
Proof.
  intros key client Hct Hserved2 c1 Hc1.
  assert (Hserved : served 1 (faults (remote c)) = true).
  { destruct (faults (remote c)) as [|[code|] rest]; [reflexivity | discriminate | reflexivity]. }
  assert (Hserved' : served 1 (tail (faults (remote c))) = true).
  { destruct (faults (remote c)) as [|[code|] rest]; [reflexivity | discriminate | exact Hserved2]. }
  pose (stored := {| blob_content := stream (file c); blobContentType := mime (file c) |}).
  pose (ct1 := {| publicAccess := publicAccess ct; blobs := <[key := stored]> (blobs ct) |}).
  assert (Hshape : exists u,
             c1 = {| remote := set_account (remote c)
                                 (<[containerName config := ct1]> (containers (remote c)))
                                 (tail (faults (remote c)));
                     file := with_url (file c) u |}).
  { destruct Hc1 as [-> | ->];
      [rewrite Part001_handleUpload_run | rewrite IndexTs_handleUpload_run];
      cbn [snd Part001.getContainerClient];
      rewrite (uploadStream_request_served
                 (getBlockBlobClient (svc_getContainerClient svc (containerName config)) key)
                 _ _ _ _ (remote c) ct Hct Hserved);
      eexists; reflexivity. }
  destruct Hshape as [u ->].
  assert (Hrun := handleDelete_run config svc
                    {| remote := set_account (remote c)
                                   (<[containerName config := ct1]> (containers (remote c)))
                                   (tail (faults (remote c)));
                       file := with_url (file c) u |} ct1).
  cbv zeta in Hrun. cbn [remote file containers faults set_account] in Hrun.
  rewrite getFileName_with_url in Hrun. fold key in Hrun.
  specialize (Hrun (lookup_insert_eq _ _ _) Hserved').
  cbn [blobs publicAccess ct1] in Hrun. rewrite lookup_insert_eq in Hrun.
  rewrite insert_insert_eq, delete_insert_eq in Hrun.
  rewrite Hrun. cbn [fst snd remote file containers set_account with_url url].
  split; [reflexivity|]. split; [reflexivity|]. split; [|reflexivity].
  eexists. rewrite lookup_insert_eq. split; [reflexivity|]. apply lookup_delete_eq.
Qed.

Lemma upload_then_delete_witness :
  let config := IndexTs.init_config raw_example in
  let svc := fst (IndexTs.makeBlobServiceClient config) in
  let c := {| remote := world_of {["media" := private_container]} []; file := photo |} in
  let c1 := snd (@IndexTs.handleUpload test_library config svc c) in
  fst (@handleDelete test_library config svc c1) = Ok tt
  /\ containers (remote (snd (@handleDelete test_library config svc c1)))
     = {["media" := private_container]}.
Proof.
  intros config svc c c1.
  assert (Hct : containers (remote c) !! containerName config = Some private_container)
    by (vm_compute; reflexivity).
  destruct (@upload_then_delete test_library config svc c private_container Hct eq_refl c1
              (or_intror eq_refl)) as (Hok & Hafter & _).
  split; [exact Hok|]. rewrite Hafter. vm_compute. reflexivity.
Defined.

(** ** What the handlers leave alone *)

Lemma handleDelete_remote `{ClientLibrary} (config : Config) (svc : BlobServiceClient) (c : Call) :
  let client := getBlobClient (svc_getContainerClient svc (containerName config))
                  (getFileName (defaultPath config) (file c)) in
  remote (snd (handleDelete config svc c)) = snd (deleteIfExists client (remote c))
  /\ (forall e, fst (deleteIfExists client (remote c)) = Throw e ->
                fst (handleDelete config svc c) = Throw e
                /\ file (snd (handleDelete config svc c)) = file c).
Proof.
  unfold handleDelete, bind, get_file, liftW, set_url. cbn [fst snd].
  match goal with |- context [deleteIfExists ?bc ?w] =>
    destruct (deleteIfExists bc w) as [[b|e'] w'] end; cbn [fst snd remote file].
  - split; [reflexivity | discriminate].
  - split; [reflexivity|]. intros e [= ->]. split; reflexivity.
Qed.

Lemma uploadStream_request_effect (bc : BlobClient) (content : string) (bufferSize maxBuffers : Z)
    (options : UploadStreamOptions) (w : World) (name : string) :
  let w' := snd (uploadStream_request bc content bufferSize maxBuffers options w) in
  publicAccess <$> containers w' !! name = publicAccess <$> containers w !! name
  /\ forall k, (name, k) <> (cc_name (bc_container bc), bc_name bc) ->
               (containers w' !! name ≫= fun ct => blobs ct !! k)
               = (containers w !! name ≫= fun ct => blobs ct !! k).
Proof.
  unfold uploadStream_request, request.
  destruct (faults w) as [|[code|] rest]; cbn [snd containers set_account]; try (split; reflexivity);
    (destruct (containers w !! cc_name (bc_container bc)) as [ct|] eqn:E;
     cbn [snd containers set_account]; [|split; reflexivity];
     destruct (decide (name = cc_name (bc_container bc))) as [->|Hname];
     [rewrite lookup_insert_eq, E; cbn; split; [reflexivity|];
      intros k Hk; apply lookup_insert_ne; congruence
     |rewrite lookup_insert_ne by congruence; split; reflexivity]).
Qed.

Lemma deleteIfExists_effect (bc : BlobClient) (w : World) (name : string) :
  let w' := snd (deleteIfExists bc w) in
  publicAccess <$> containers w' !! name = publicAccess <$> containers w !! name
  /\ forall k, (name, k) <> (cc_name (bc_container bc), bc_name bc) ->
               (containers w' !! name ≫= fun ct => blobs ct !! k)
               = (containers w !! name ≫= fun ct => blobs ct !! k).
Proof.
  unfold deleteIfExists, request.
  destruct (faults w) as [|[code|] rest]; cbn [snd containers set_account]; try (split; reflexivity);
    (destruct (containers w !! cc_name (bc_container bc)) as [ct|] eqn:E;
     cbn [snd containers set_account]; [|split; reflexivity];
     destruct (blobs ct !! bc_name bc);
     cbn [snd containers set_account]; [|split; reflexivity];
     destruct (decide (name = cc_name (bc_container bc))) as [->|Hname];
     [rewrite lookup_insert_eq, E; cbn; split; [reflexivity|];
      intros k Hk; apply lookup_delete_ne; congruence
     |rewrite lookup_insert_ne by congruence; split; reflexivity]).
Qed.

(** X11 — whatever the requests come to, upload and delete leave the set of
    containers and every container's access level as they were, and touch no
    object but the one at the derived key of the configured container.
    [handleUpload] of both files and [handleDelete]. *)
Theorem handlers_touch_one_object `{ClientLibrary} (config : Config) (svc : BlobServiceClient)
    (c : Call) (name k : string) :
  let key := getFileName (defaultPath config) (file c) in
  forall c',
    c' = snd (Part001.handleUpload config svc c) \/ c' = snd (IndexTs.handleUpload config svc c)
    \/ c' = snd (handleDelete config svc c) ->
    publicAccess <$> containers (remote c') !! name
    = publicAccess <$> containers (remote c) !! name
    /\ ((name, k) <> (containerName config, key) ->
        (containers (remote c') !! name ≫= fun ct => blobs ct !! k)
        = (containers (remote c) !! name ≫= fun ct => blobs ct !! k)).
Proof.
  intros key c' [-> | [-> | ->]].
  - rewrite Part001_handleUpload_run. cbn [snd remote].
    match goal with |- context [uploadStream_request ?bc ?s ?b ?m ?o ?w] =>
      destruct (uploadStream_request_effect bc s b m o w name) as [Hlevel Hblobs] end.
    split; [exact Hlevel | intros Hk; now apply Hblobs].
  - rewrite IndexTs_handleUpload_run. cbn [snd remote].
    match goal with |- context [uploadStream_request ?bc ?s ?b ?m ?o ?w] =>
      destruct (uploadStream_request_effect bc s b m o w name) as [Hlevel Hblobs] end.
    split; [exact Hlevel | intros Hk; now apply Hblobs].
  - rewrite (proj1 (handleDelete_remote config svc c)).
    match goal with |- context [deleteIfExists ?bc ?w] =>
      destruct (deleteIfExists_effect bc w name) as [Hlevel Hblobs] end.
    split; [exact Hlevel | intros Hk; now apply Hblobs].
Qed.

Lemma handlers_touch_one_object_witness :
  let config := IndexTs.init_config raw_example in
  let svc := fst (IndexTs.makeBlobServiceClient config) in
  let other := {| blob_content := "JPG-bytes"; blobContentType := "image/jpeg" |} in
  let c := {| remote := world_of {["media" := {| publicAccess := Some access_blob;
                                                 blobs := {["assets/xyz.jpg" := other]} |}]} [];
              file := photo |} in
  (containers (remote (snd (@IndexTs.handleUpload test_library config svc c))) !! "media"
     ≫= fun ct => blobs ct !! "assets/xyz.jpg") = Some other.
Proof.
  intros config svc other c.
  rewrite (proj2 (@handlers_touch_one_object test_library config svc c "media" "assets/xyz.jpg"
                    _ (or_intror (or_introl eq_refl)))) by discriminate.
  vm_compute. reflexivity.
Defined.

Lemma deleteIfExists_rejected (bc : BlobClient) (w : World) (e : JsError) :
  fst (deleteIfExists bc w) = Throw e ->
  containers (snd (deleteIfExists bc w)) = containers w.
Proof.
  unfold deleteIfExists, request.
  destruct (faults w) as [|[code|] rest]; cbn [fst snd containers set_account]; try reflexivity;
    (destruct (containers w !! cc_name (bc_container bc)) as [ct|]; [|reflexivity];
     destruct (blobs ct !! bc_name bc); discriminate).
Qed.

(** X12 — a delete whose request is rejected: the call is rejected with the
    same error and the descriptor is left exactly as it was, its URL
    included, since [file.url] is assigned after the request; nothing is
    removed. Upload does the opposite and assigns the URL first. *)
Theorem delete_rejected_descriptor_untouched `{ClientLibrary} (config : Config)
    (svc : BlobServiceClient) (c : Call) (e : JsError) :
  let client := getBlobClient (svc_getContainerClient svc (containerName config))
                  (getFileName (defaultPath config) (file c)) in
  fst (deleteIfExists client (remote c)) = Throw e ->
  fst (handleDelete config svc c) = Throw e
  /\ file (snd (handleDelete config svc c)) = file c
  /\ containers (remote (snd (handleDelete config svc c))) = containers (remote c).
Proof.
  intros client Hfail.
  destruct (handleDelete_remote config svc c) as [Hremote Hthrow].
  destruct (Hthrow e Hfail) as [Hres Hfile].
  split; [exact Hres|]. split; [exact Hfile|].
  rewrite Hremote. now apply deleteIfExists_rejected with (e := e).
Qed.

Lemma delete_rejected_descriptor_untouched_witness :
  let config := IndexTs.init_config raw_example in
  let svc := fst (IndexTs.makeBlobServiceClient config) in
  let old := with_url photo "https://acc.blob.core.windows.net/media/assets/abc.png?old" in
  (let c := {| remote := world_of {["media" := private_container]} [Some "ServerBusy"]; file := old |} in
   fst (@handleDelete test_library config svc c) = Throw (RestError "ServerBusy")
   /\ file (snd (@handleDelete test_library config svc c)) = old)
  /\ (let c := {| remote := world_of ∅ []; file := old |} in
      fst (@handleDelete test_library config svc c) = Throw (RestError "ContainerNotFound")
      /\ file (snd (@handleDelete test_library config svc c)) = old).
Proof.
  intros config svc old. split; intros c.
  - destruct (@delete_rejected_descriptor_untouched test_library config svc c
                (RestError "ServerBusy") eq_refl) as (Hres & Hfile & _).
    split; [exact Hres | exact Hfile].
  - assert (Hfail : fst (deleteIfExists
                           (getBlobClient (svc_getContainerClient svc (containerName config))
                              (getFileName (defaultPath config) (file c))) (remote c))
                    = Throw (RestError "ContainerNotFound")) by (vm_compute; reflexivity).
    destruct (@delete_rejected_descriptor_untouched test_library config svc c
                (RestError "ContainerNotFound") Hfail) as (Hres & Hfile & _).
    split; [exact Hres | exact Hfile].
Defined.

(** ** More on the visibility query *)

Lemma isPrivate_creates_container_witness :
  let config := IndexTs.init_config raw_example in
  let svc := fst (IndexTs.makeBlobServiceClient config) in
  IndexTs.isPrivate 2 config svc (world_of ∅ [None; None; None; None; Some "ServerBusy"])
  = Some (Ok true, world_of {["media" := private_container]} [Some "ServerBusy"])
  /\ IndexTs.isPrivate 1 config svc (world_of ∅ [None; None; None; None; Some "ServerBusy"]) = None.
Proof.
  intros config svc.
  destruct (isPrivate_creates_container config svc
              (world_of ∅ [None; None; None; None; Some "ServerBusy"]) 0
              (lookup_empty _) eq_refl eq_refl) as [Hrun Hshort].
  split; [|exact Hshort]. rewrite Hrun. vm_compute. reflexivity.
Defined.

(** X15 — a request of [isPrivate] that fails ends the call with that
    error: at the first query nothing else is asked; at the creation the
    container is not created and there is no retry; at the properties query
    no answer is made up. The account is left as it was. *)
Theorem isPrivate_request_failure (config : Config) (svc : BlobServiceClient) (w : World)
    (fuel : nat) (code : string) (rest : list (option string)) :
  (faults w = Some code :: rest ->
   IndexTs.isPrivate (S fuel) config svc w
   = Some (Throw (RestError code), set_account w (containers w) rest))
  /\ (faults w = None :: Some code :: rest ->
      containers w !! containerName config = None ->
      truthy (createContainerIfNotExists config) = true ->
      IndexTs.isPrivate (S fuel) config svc w
      = Some (Throw (RestError code), set_account w (containers w) rest))
  /\ (faults w = None :: Some code :: rest ->
      is_Some (containers w !! containerName config) ->
      IndexTs.isPrivate (S fuel) config svc w
      = Some (Throw (RestError code), set_account w (containers w) rest)).
Proof.
  split; [|split].
  - intros Hfaults. cbn [IndexTs.isPrivate]. unfold container_exists, request. now rewrite Hfaults.
  - intros Hfaults Hmissing Hflag. cbn [IndexTs.isPrivate].
    unfold container_exists, createIfNotExists, request. rewrite Hfaults.
    cbn [svc_getContainerClient cc_name]. rewrite Hmissing.
    rewrite bool_decide_false by (intros [? ?]; discriminate).
    rewrite Hflag. reflexivity.
  - intros Hfaults Hct. cbn [IndexTs.isPrivate].
    unfold container_exists, getProperties, bind, request. rewrite Hfaults.
    cbn [svc_getContainerClient cc_name].
    rewrite bool_decide_true by assumption. reflexivity.
Qed.

Lemma isPrivate_request_failure_witness :
  let config := IndexTs.init_config raw_example in
  let svc := fst (IndexTs.makeBlobServiceClient config) in
  IndexTs.isPrivate 2 config svc (world_of ∅ [None; Some "AuthorizationFailure"])
  = Some (Throw (RestError "AuthorizationFailure"), world_of ∅ [])
  /\ IndexTs.isPrivate 1 config svc (world_of ∅ [Some "ServerBusy"; None])
     = Some (Throw (RestError "ServerBusy"), world_of ∅ [None]).
Proof.
  intros config svc. split.
  - exact (proj1 (proj2 (isPrivate_request_failure config svc
                           (world_of ∅ [None; Some "AuthorizationFailure"]) 1
                           "AuthorizationFailure" [])) eq_refl (lookup_empty _) eq_refl).
  - exact (proj1 (isPrivate_request_failure config svc
                    (world_of ∅ [Some "ServerBusy"; None]) 0 "ServerBusy" [None]) eq_refl).
Defined.

Lemma container_exists_containers (cc : ContainerClient) (w : World) :
  containers (snd (container_exists cc w)) = containers w.
Proof.
  unfold container_exists, request. destruct (faults w) as [|[code|] rest]; reflexivity.
Qed.

Lemma getProperties_containers (cc : ContainerClient) (w : World) :
  containers (snd (getProperties cc w)) = containers w.
Proof.
  unfold getProperties, request.
  destruct (faults w) as [|[code|] rest]; try reflexivity;
    destruct (containers w !! cc_name cc); reflexivity.
Qed.

Lemma createIfNotExists_keeps (cc : ContainerClient) (access : JsValue) (w : World)
    (name : string) (ct : Container) :
  containers w !! name = Some ct ->
  containers (snd (createIfNotExists cc access w)) !! name = Some ct.
Proof.
  intros Hct. unfold createIfNotExists, request.
  destruct (faults w) as [|[code|] rest]; cbn [snd containers set_account]; try exact Hct;
    (destruct (access_option access); [|exact Hct];
     destruct (containers w !! cc_name cc) eqn:E; cbn [snd containers set_account]; [exact Hct|];
     rewrite lookup_insert_ne by congruence; exact Hct).
Qed.

(** X16 — [isPrivate] never removes or changes a container: every container
    of the account, with its access level and its objects, is still there
    after the call, whatever the outcome. *)
Theorem isPrivate_keeps_containers (config : Config) (svc : BlobServiceClient) (fuel : nat)
    (w : World) (outcome : Result bool * World) (name : string) (ct : Container) :
  IndexTs.isPrivate fuel config svc w = Some outcome ->
  containers w !! name = Some ct ->
  containers (snd outcome) !! name = Some ct.
Proof.
  revert w. induction fuel as [|fuel IH]; intros w; [discriminate|].
  cbn [IndexTs.isPrivate]. intros Hrun Hct.
  pose proof (container_exists_containers
                (svc_getContainerClient svc (containerName config)) w) as Hexists.
  destruct (container_exists (svc_getContainerClient svc (containerName config)) w)
    as [[[|]|e] w1]; cbn [snd] in Hexists.
  - injection Hrun as <-. unfold bind, ret.
    pose proof (getProperties_containers
                  (svc_getContainerClient svc (containerName config)) w1) as Hprops.
    destruct (getProperties (svc_getContainerClient svc (containerName config)) w1)
      as [[p|e] w2]; cbn [snd] in *; now rewrite Hprops, Hexists.
  - destruct (truthy (createContainerIfNotExists config)).
    + pose proof (createIfNotExists_keeps (svc_getContainerClient svc (containerName config))
                    JsUndefined w1 name ct) as Hcreate.
      destruct (createIfNotExists (svc_getContainerClient svc (containerName config)) JsUndefined w1)
        as [[b|e] w2]; cbn [snd] in Hcreate.
      * apply (IH w2 Hrun). apply Hcreate. now rewrite Hexists.
      * injection Hrun as <-. cbn [snd]. apply Hcreate. now rewrite Hexists.
    + injection Hrun as <-. cbn [snd]. now rewrite Hexists.
  - injection Hrun as <-. cbn [snd]. now rewrite Hexists.
Qed.

Lemma isPrivate_keeps_containers_witness :
  let config := IndexTs.init_config raw_example in
  let svc := fst (IndexTs.makeBlobServiceClient config) in
  let other := {| publicAccess := Some access_container; blobs := ∅ |} in
  (IndexTs.isPrivate 2 config svc (world_of {["backup" := other]} [])
     ≫= fun outcome => containers (snd outcome) !! "backup") = Some other.
Proof.
  intros config svc other.
  destruct (IndexTs.isPrivate 2 config svc (world_of {["backup" := other]} []))
    as [outcome|] eqn:Hrun.
  - refine (isPrivate_keeps_containers config svc 2 (world_of {["backup" := other]} [])
              outcome "backup" other Hrun _).
    vm_compute. reflexivity.
  - vm_compute in Hrun. discriminate Hrun.
Defined.

(** ** More on the CDN rule *)

(** X18 — a CDN base URL that is blank, or not a string, counts as none:
    [init] turns it into the empty string and upload writes the URL without
    any replacement. Both files. *)
Theorem upload_blank_cdn_no_rewrite `{ClientLibrary} (raw : RawConfig) (c : Call) :
  (forall s, raw_cdnBaseURL raw = JsString s -> all_white_space s = true) ->
  let config := Part001.init_config raw in
  let svc := fst (Part001.makeBlobServiceClient config) in
  let client := getBlockBlobClient (Part001.getContainerClient svc config)
                  (getFileName (defaultPath config) (file c)) in
  cdnBaseURL config = ""
  /\ url (file (snd (Part001.Methods.upload (Part001.init raw) c)))
     = (if is_string (raw_containerAccessType raw) "private"
        then generateSasUrl client {| permissions := permissions_read_only;
                                      expiresOn := UTC (remote c) 32503680000000 |}
        else client_url client)
  /\ url (file (snd (IndexTs.Methods.upload (IndexTs.init raw) c))) = client_url client.
Proof.
  intros Hblank config svc client.
  assert (Hcdn : trimParam (raw_cdnBaseURL raw) = "").
  { destruct (raw_cdnBaseURL raw) as [| | | | |s]; try reflexivity.
    apply trim_all_white. now apply Hblank. }
  split; [exact Hcdn|].
  cbn [Part001.init IndexTs.init Part001.Methods.upload IndexTs.Methods.upload].
  rewrite Part001_handleUpload_run, IndexTs_handleUpload_run.
  cbn [snd file url with_url cdnBaseURL Part001.init_config IndexTs.init_config].
  rewrite Hcdn. cbn [truthy String.eqb negb]. split; reflexivity.
Qed.

Lemma upload_blank_cdn_no_rewrite_witness :
  let raw := with_cdn (JsString "  ") raw_example in
  let c := {| remote := world_of {["media" := private_container]} []; file := photo |} in
  url (file (snd (IndexTs.Methods.upload (@IndexTs.init test_library raw) c)))
  = "https://acc.blob.core.windows.net/media/assets/abc.png".
Proof.
  intros raw c.
  refine (proj2 (proj2 (@upload_blank_cdn_no_rewrite test_library raw c _))).
  intros s [= <-]. reflexivity.
Defined.

(** X19 — with a CDN base URL configured, a URL that does not contain the
    service base URL is written as it is: the replacement finds nothing and
    upload goes on without any sign of it. *)
Theorem upload_cdn_without_match `{ClientLibrary} (config : Config) (svc : BlobServiceClient)
    (c : Call) :
  let client := getBlockBlobClient (svc_getContainerClient svc (containerName config))
                  (getFileName (defaultPath config) (file c)) in
  ~ contains (serviceBaseURL config) (client_url client) ->
  url (file (snd (IndexTs.handleUpload config svc c))) = client_url client
  /\ (containerAccessType config <> JsString "private" ->
      url (file (snd (Part001.handleUpload config svc c))) = client_url client).
Proof.
  intros client Hnone.
  rewrite Part001_handleUpload_run, IndexTs_handleUpload_run. cbn [snd file url with_url].
  fold client. split.
  - destruct (truthy (JsString (cdnBaseURL config))); [|reflexivity].
    now apply replace_without_match.
  - intros Hother.
    destruct (is_string (containerAccessType config) "private") eqn:E.
    + apply is_string_true in E. contradiction.
    + destruct (truthy (JsString (cdnBaseURL config))); [|reflexivity].
      now apply replace_without_match.
Qed.

Lemma upload_cdn_without_match_witness :
  let config := IndexTs.init_config (with_cdn (JsString "https://cdn.example.com") raw_example) in
  let svc := fst (IndexTs.makeBlobServiceClient config) in
  let c := {| remote := world_of {["media" := private_container]} []; file := photo |} in
  url (file (snd (@IndexTs.handleUpload detached_library config svc c)))
  = "https://storage.local/media/assets/abc.png".
Proof.
  intros config svc c.
  refine (proj1 (@upload_cdn_without_match detached_library config svc c _)).
  intros Hcontains. apply split_at_first_complete in Hcontains.
  apply Hcontains. vm_compute. reflexivity.
Defined.

(** ** The two files side by side *)

(** X20 — unless the access type is ['private'], [handleUpload] of
    [part_001] and [handleUpload] of [index.ts] do the same: same outcome,
    same account, same descriptor. *)
Theorem handleUpload_variants_agree `{ClientLibrary} (config : Config) (svc : BlobServiceClient)
    (c : Call) :
  containerAccessType config <> JsString "private" ->
  Part001.handleUpload config svc c = IndexTs.handleUpload config svc c.
Proof.
  intros Hother. rewrite Part001_handleUpload_run, IndexTs_handleUpload_run.
  destruct (is_string (containerAccessType config) "private") eqn:E; [|reflexivity].
  apply is_string_true in E. contradiction.
Qed.

Lemma handleUpload_variants_agree_witness :
  let config := Part001.init_config (with_access (JsString "blob") raw_example) in
  let svc := fst (Part001.makeBlobServiceClient config) in
  let c := {| remote := world_of {["media" := private_container]} []; file := photo |} in
  @Part001.handleUpload test_library config svc c = @IndexTs.handleUpload test_library config svc c.
Proof.
  intros config svc c.
  apply (@handleUpload_variants_agree test_library config svc c). discriminate.
Defined.

(** X21 — the signed URL [getSignedUrl] answers is for the object upload
    wrote: when a signed URL is the plain one with a query after it, it is
    the client's plain URL with that query, and without a CDN base URL that
    is the URL [handleUpload] of [index.ts] put into the descriptor. The CDN
    rule is not applied to it. *)
Theorem getSignedUrl_extends_upload_url `{ClientLibrary} (config : Config)
    (svc : BlobServiceClient) (c : Call) :
  sas_extends_url ->
  let client := getBlobClient (svc_getContainerClient svc (containerName config))
                  (getFileName (defaultPath config) (file c)) in
  exists answer q,
    fst (IndexTs.getSignedUrl config svc c) = Ok answer
    /\ q <> ""
    /\ url_of answer = client_url client ++ q
    /\ (cdnBaseURL config = "" ->
        url_of answer = url (file (snd (IndexTs.handleUpload config svc c))) ++ q).
Proof.
  intros Hsas client.
  unfold IndexTs.getSignedUrl, bind, get_file, liftW, new_Date, setDate_next_day, ret.
  cbn [fst snd remote file]. fold client.
  match goal with |- context [generateSasUrl client ?o] =>
    destruct (Hsas client o) as (q & Hq & Hurl) end.
  eexists. exists q. split; [reflexivity|]. split; [exact Hq|]. cbn [url_of].
  split; [exact Hurl|].
  intros Hcdn. rewrite IndexTs_handleUpload_run. cbn [snd file url with_url].
  rewrite Hcdn. exact Hurl.
Qed.

Lemma getSignedUrl_extends_upload_url_witness :
  let config := IndexTs.init_config raw_example in
  let svc := fst (IndexTs.makeBlobServiceClient config) in
  let c := {| remote := world_of {["media" := private_container]} []; file := photo |} in
  exists answer q,
    fst (@IndexTs.getSignedUrl test_library config svc c) = Ok answer
    /\ q <> ""
    /\ url_of answer = "https://acc.blob.core.windows.net/media/assets/abc.png" ++ q.
Proof.
  intros config svc c.
  destruct (@getSignedUrl_extends_upload_url test_library config svc c test_library_sas_extends_url)
    as (answer & q & Hanswer & Hq & Hurl & _).
  exists answer, q. split; [exact Hanswer|]. split; [exact Hq | exact Hurl].
Defined.

(** ** Provisioning and the first upload *)

Lemma provisioning_task_ok (config : Config)
    (task : M World string) (w w1 : World) (msg : string) :
  snd (Part001.makeBlobServiceClient config) = Some task
  \/ snd (IndexTs.makeBlobServiceClient config) = Some task ->
  task w = (Ok msg, w1) ->
  is_Some (containers w1 !! containerName config).
Proof.
  unfold Part001.makeBlobServiceClient, IndexTs.makeBlobServiceClient. cbn [snd].
  destruct (truthy (createContainerIfNotExists config)); [|intros [[=]|[=]]].
  intros [[= <-]|[= <-]]; unfold bind, ret;
    match goal with |- context [createIfNotExists ?cc ?a w] =>
      destruct (createIfNotExists cc a w) as [[b|e] w'] eqn:E end;
    intros [= _ <-]; apply createIfNotExists_ok in E; exact E.
Qed.

(** X22 — once the creation request [init] left running has come back
    without an error, with either log line, an upload whose write is served
    succeeds and the object is in the configured container. An upload that
    gets to an account without the container first is rejected and creates
    nothing. Both files. *)
Theorem upload_after_provisioning `{ClientLibrary} (config : Config) (c : Call)
    (task : M World string) (msg : string) (w1 : World) :
  let key := getFileName (defaultPath config) (file c) in
  let stored := {| blob_content := stream (file c); blobContentType := mime (file c) |} in
  let c1 := {| remote := w1; file := file c |} in
  (snd (Part001.makeBlobServiceClient config) = Some task
   \/ snd (IndexTs.makeBlobServiceClient config) = Some task) ->
  task (remote c) = (Ok msg, w1) ->
  served 1 (faults w1) = true ->
  (forall c2,
     c2 = Part001.handleUpload config (fst (Part001.makeBlobServiceClient config)) c1
     \/ c2 = IndexTs.handleUpload config (fst (IndexTs.makeBlobServiceClient config)) c1 ->
     fst c2 = Ok tt
     /\ (containers (remote (snd c2)) !! containerName config ≫= fun ct => blobs ct !! key)
        = Some stored)
  /\ (containers (remote c) !! containerName config = None ->
      served 1 (faults (remote c)) = true ->
      forall c2,
        c2 = Part001.handleUpload config (fst (Part001.makeBlobServiceClient config)) c
        \/ c2 = IndexTs.handleUpload config (fst (IndexTs.makeBlobServiceClient config)) c ->
        fst c2 = Throw (RestError "ContainerNotFound")
        /\ containers (remote (snd c2)) = containers (remote c)).
Proof.
  intros key stored c1 Htask Hrun Hserved.
  destruct (provisioning_task_ok config task (remote c) w1 msg Htask Hrun) as [ct Hct].
  split.
  - intros c2 Hc2.
    assert (Hshape : fst c2 = Ok tt
                     /\ containers (remote (snd c2))
                        = <[containerName config :=
                              {| publicAccess := publicAccess ct;
                                 blobs := <[key := stored]> (blobs ct) |}]> (containers w1)).
    { destruct Hc2 as [-> | ->];
        [rewrite Part001_handleUpload_run | rewrite IndexTs_handleUpload_run];
        unfold c1; cbn [fst snd remote file Part001.getContainerClient];
        repeat match goal with |- context [uploadStream_request ?bc ?s ?b ?m ?o w1] =>
          rewrite (uploadStream_request_served bc s b m o w1 ct Hct Hserved) end;
        split; reflexivity. }
    destruct Hshape as [Hok Hafter]. split; [exact Hok|].
    rewrite Hafter, lookup_insert_eq. cbn. apply lookup_insert_eq.
  - intros Hmissing Hserved0 c2 Hc2.
    assert (Hwrite : forall svc,
              uploadStream_request
                (getBlockBlobClient (svc_getContainerClient svc (containerName config))
                   (getFileName (defaultPath config) (file c)))
                (stream (file c)) (bufferSize uploadOptions) (maxBuffers uploadOptions)
                {| blobHTTPHeaders_blobContentType := mime (file c) |} (remote c)
              = (Throw (RestError "ContainerNotFound"),
                 set_account (remote c) (containers (remote c)) (tail (faults (remote c))))).
    { intros svc. unfold uploadStream_request.
      match goal with |- context [request ?f ?w] =>
        destruct (request_served f w 0 Hserved0) as [-> _] end.
      cbn [getBlockBlobClient svc_getContainerClient bc_container cc_name].
      now rewrite Hmissing. }
    destruct Hc2 as [-> | ->];
      [rewrite Part001_handleUpload_run | rewrite IndexTs_handleUpload_run];
      unfold Part001.getContainerClient; cbn [fst snd remote]; rewrite !Hwrite; split; reflexivity.
Qed.

Lemma upload_after_provisioning_witness :
  let config := IndexTs.init_config raw_example in
  let svc := fst (IndexTs.makeBlobServiceClient config) in
  let c := {| remote := world_of ∅ []; file := photo |} in
  (containers (remote (snd (@IndexTs.handleUpload test_library config svc
                              {| remote := world_of {["media" := private_container]} [];
                                 file := photo |}))) !! "media"
     ≫= fun ct => blobs ct !! "assets/abc.png")
  = Some {| blob_content := "PNG-bytes"; blobContentType := "image/png" |}
  /\ fst (@IndexTs.handleUpload test_library config svc c) = Throw (RestError "ContainerNotFound").
Proof.
  intros config svc c.
  assert (Htask : exists task, snd (IndexTs.makeBlobServiceClient config) = Some task
                               /\ task (remote c)
                                  = (Ok "container media created successfully",
                                     world_of {["media" := private_container]} [])).
  { eexists. split; [reflexivity|]. vm_compute. reflexivity. }
  destruct Htask as (task & Htask & Hrun).
  destruct (@upload_after_provisioning test_library config c task _ _
              (or_intror Htask) Hrun eq_refl) as [Hafter Hbefore].
  split.
  - exact (proj2 (Hafter _ (or_intror eq_refl))).
  - exact (proj1 (Hbefore (lookup_empty _) eq_refl _ (or_intror eq_refl))).
Defined.
